(** * The sliding-window segmenter of [main.py]

    A shallow embedding of [calculate_frame_duration] and of
    [CreateNsAudioPackage.execute] (src/main.py), together with the
    properties of the window, of the cumulative duration and of the
    emitted blob.

    Modelling conventions.
    - [bytes] values are lists of [Byte.byte]; Python [int]s are [Z].
    - Durations are Python floats in the source, and the development
      has them twice.  In the first embedding they are exact rationals
      [Q]: [samples / sample_rate] is the fraction
      [samples # sample_rate], sums and differences are exact, and
      equality of durations is [Qeq] ([==]); its concrete runs only use
      durations that binary64 represents exactly.  The module
      [Binary64] embeds the same lines with the floats of the source:
      every quotient, sum and difference is rounded to binary64, and a
      quotient beyond the largest float raises [OverflowError].  The
      properties in which rounding matters are stated there.
    - The instance attributes of [CreateNsAudioPackage] are the fields of
      a record that [execute] takes and returns.
    - The module [extract_ogg] ([OggSFrame], [get_header_frames]) is a
      collaborator of [main.py]; it is the class [PageParser]. *)

From Stdlib Require Import ZArith QArith Qminmax List Bool Lia Lqa.
From Stdlib Require Import Sorting.Sorted.
From Stdlib Require Import Floats.SpecFloat.
From Stdlib Require Strings.Byte Strings.String.
Import ListNotations.
Import String.StringSyntax.
Delimit Scope string_scope with string.

Open Scope Z_scope.

(** ** Data *)

Definition bytes : Type := list Byte.byte.

(** [OggSFrame]: the two members [execute] reads, [frame.raw_data] and
    [frame.header['granule_position']]. *)
Record OggSFrame : Type := mkFrame {
  raw_data : bytes;
  granule_position : Z
}.

(** The collaborator [extract_ogg].  [OggSFrame_new data] is the
    constructor call [OggSFrame(data)], [None] when it raises;
    [get_header_frames buf] returns the identification frame, if found,
    and the list of comment frames. *)
Class PageParser : Type := {
  OggSFrame_new : bytes -> option OggSFrame;
  get_header_frames : bytes -> option OggSFrame * list OggSFrame
}.

(** The attributes set by [CreateNsAudioPackage.__init__]. *)
Record CreateNsAudioPackage : Type := mkState {
  audio_data_buffer : list OggSFrame;
  sample_rate : positive;
  last_n_seconds : Z;
  current_audio_buffer_seconds : Q;
  header_buffer : bytes;
  header_frames : option (list OggSFrame)
}.

Definition init : CreateNsAudioPackage :=
  {| audio_data_buffer := [];
     sample_rate := 48000;
     last_n_seconds := 10;
     current_audio_buffer_seconds := 0;
     header_buffer := [];
     header_frames := None |}.

(** Assignments to the attributes. *)
Definition set_window (self : CreateNsAudioPackage)
    (buffer : list OggSFrame) (seconds : Q) : CreateNsAudioPackage :=
  {| audio_data_buffer := buffer;
     sample_rate := sample_rate self;
     last_n_seconds := last_n_seconds self;
     current_audio_buffer_seconds := seconds;
     header_buffer := header_buffer self;
     header_frames := header_frames self |}.

Definition set_header_buffer (self : CreateNsAudioPackage) (buffer : bytes)
  : CreateNsAudioPackage :=
  {| audio_data_buffer := audio_data_buffer self;
     sample_rate := sample_rate self;
     last_n_seconds := last_n_seconds self;
     current_audio_buffer_seconds := current_audio_buffer_seconds self;
     header_buffer := buffer;
     header_frames := header_frames self |}.

Definition set_header_frames (self : CreateNsAudioPackage)
    (frames : option (list OggSFrame)) : CreateNsAudioPackage :=
  {| audio_data_buffer := audio_data_buffer self;
     sample_rate := sample_rate self;
     last_n_seconds := last_n_seconds self;
     current_audio_buffer_seconds := current_audio_buffer_seconds self;
     header_buffer := header_buffer self;
     header_frames := frames |}.

(** What one call of [execute] does to its arguments [dp] and [dpm].
    - [Raise e]: an exception leaves [execute];
    - [HeadersIncomplete]: [dpm.success = False],
      [dpm.message = "Could not find the header frames"], then [return];
    - [NoUpdate]: the call ends without touching [dp] or [dpm];
    - [Emitted blob]: [dp.data = blob]. *)
Inductive Exception : Type :=
| ParseFailure   (* raised by OggSFrame(dp.data) *)
| IndexError.    (* list.pop(0) on an empty list *)

Inductive Outcome : Type :=
| Raise (e : Exception)
| HeadersIncomplete
| NoUpdate
| Emitted (blob : bytes).

(** ** Duration of a frame (main.py, lines 17-22)

    A sample rate of zero would raise [ZeroDivisionError]; the rate is a
    [positive], as the attribute always is (48000). *)
Definition calculate_frame_duration
    (current_granule_position : Z) (previous_granule_position : option Z)
    (sample_rate : positive) : Q :=
  match previous_granule_position with
  | None => 0%Q
  | Some previous =>
      let samples := current_granule_position - previous in
      (samples # sample_rate)%Q
  end.

(** Float comparisons [x > y] and [x >= y]. *)
Definition Qgtb (x y : Q) : bool :=
  match (x ?= y)%Q with Gt => true | _ => false end.

Definition Qgeb (x y : Q) : bool :=
  match (x ?= y)%Q with Lt => false | _ => true end.

(** Truth value of [self.header_frames] ([None] and [[]] are false). *)
Definition truthy {A : Type} (o : option (list A)) : bool :=
  match o with
  | Some (_ :: _) => true
  | _ => false
  end.

(** [buf[-1] if len(buf) > 0 else None]. *)
Definition last_frame (buf : list OggSFrame) : option OggSFrame :=
  hd_error (rev buf).

(** [b''.join([frame.raw_data for frame in buf])]. *)
Definition join_raw (buf : list OggSFrame) : bytes :=
  List.concat (map raw_data buf).

(** ** Window update and emission (main.py, lines 63-89)

    The part of [execute] that runs once [self.header_frames] is set. *)
Definition update_window (self : CreateNsAudioPackage) (frame : OggSFrame)
  : CreateNsAudioPackage * Outcome :=
  let current_granule_position := granule_position frame in
  let previous_granule_position :=
    match last_frame (audio_data_buffer self) with
    | Some lf => granule_position lf
    | None => 0
    end in
  let frame_duration :=
    calculate_frame_duration current_granule_position
      (Some previous_granule_position) (sample_rate self) in
  let buffer1 := audio_data_buffer self ++ [frame] in
  let seconds1 := (current_audio_buffer_seconds self + frame_duration)%Q in
  if Qgtb frame_duration 0 then
    if Qgeb seconds1 (inject_Z (last_n_seconds self)) then
      match buffer1 with
      | [] => (set_window self buffer1 seconds1, Raise IndexError)
      | pop_frame :: buffer2 =>
          let pop_frame_granule_position := granule_position pop_frame in
          let next_frame_granule_position :=
            match buffer2 with
            | next :: _ => granule_position next
            | [] => pop_frame_granule_position
            end in
          let pop_frame_duration :=
            calculate_frame_duration next_frame_granule_position
              (Some pop_frame_granule_position) (sample_rate self) in
          (set_window self buffer2 (seconds1 - pop_frame_duration)%Q,
           Emitted (header_buffer self ++ join_raw buffer2))
      end
    else
      (set_window self buffer1 seconds1,
       Emitted (header_buffer self ++ join_raw buffer1))
  else
    (set_window self buffer1 seconds1, NoUpdate).

(** Names for intermediate values of [update_window]: the granule
    position it compares with, and the duration it attributes to
    [frame]. *)
Definition previous_granule_position (buf : list OggSFrame) : Z :=
  match last_frame buf with
  | Some lf => granule_position lf
  | None => 0
  end.

Definition frame_duration_of (self : CreateNsAudioPackage) (frame : OggSFrame) : Q :=
  calculate_frame_duration (granule_position frame)
    (Some (previous_granule_position (audio_data_buffer self)))
    (sample_rate self).

(** The state after line 47, and after lines 53-55. *)
Definition accumulated (self : CreateNsAudioPackage) (frame : OggSFrame)
  : CreateNsAudioPackage :=
  set_header_buffer self (header_buffer self ++ raw_data frame).

Definition captured (self : CreateNsAudioPackage) (frame id_header_frame : OggSFrame)
    (comment_header_frames : list OggSFrame) : CreateNsAudioPackage :=
  set_header_frames (accumulated self frame)
    (Some ([id_header_frame] ++ comment_header_frames)).

(** ** [CreateNsAudioPackage.execute] (main.py, lines 42-89) *)
Section Execute.
Context {parser : PageParser}.

Definition execute (self : CreateNsAudioPackage) (data : bytes)
  : CreateNsAudioPackage * Outcome :=
  match data with
  | [] => (self, NoUpdate)                       (* [if dp.data:] is false *)
  | _ :: _ =>
      match OggSFrame_new data with
      | None => (self, Raise ParseFailure)
      | Some frame =>
          if truthy (header_frames self) then update_window self frame
          else
            let self1 := accumulated self frame in
            match get_header_frames (header_buffer self1) with
            | (Some id_header_frame, (_ :: _) as comment_header_frames) =>
                update_window
                  (set_header_frames self1
                     (Some ([id_header_frame] ++ comment_header_frames)))
                  frame
            | _ => (self1, HeadersIncomplete)
            end
      end
  end.

(** The pipeline calls [execute] once per page, in order: the state
    after a list of calls, and the outcomes of the calls. *)
Fixpoint run (self : CreateNsAudioPackage) (pages : list bytes)
  : CreateNsAudioPackage * list Outcome :=
  match pages with
  | [] => (self, [])
  | data :: rest =>
      let (self1, out) := execute self data in
      let (self2, outs) := run self1 rest in
      (self2, out :: outs)
  end.

(** The five paths through [execute]. *)
Inductive execute_path (self : CreateNsAudioPackage) (data : bytes)
  : CreateNsAudioPackage * Outcome -> Prop :=
| path_skip :
    data = [] ->
    execute_path self data (self, NoUpdate)
| path_raise :
    data <> [] -> OggSFrame_new data = None ->
    execute_path self data (self, Raise ParseFailure)
| path_streaming frame :
    data <> [] -> OggSFrame_new data = Some frame ->
    truthy (header_frames self) = true ->
    execute_path self data (update_window self frame)
| path_incomplete frame :
    data <> [] -> OggSFrame_new data = Some frame ->
    truthy (header_frames self) = false ->
    (forall id c cs,
        get_header_frames (header_buffer self ++ raw_data frame)
        <> (Some id, c :: cs)) ->
    execute_path self data (accumulated self frame, HeadersIncomplete)
| path_capture frame id c cs :
    data <> [] -> OggSFrame_new data = Some frame ->
    truthy (header_frames self) = false ->
    get_header_frames (header_buffer self ++ raw_data frame) = (Some id, c :: cs) ->
    execute_path self data (update_window (captured self frame id (c :: cs)) frame).

(** The frames whose bytes the calls add to the accumulator (line 47):
    those of the pages that parse while the headers are missing. *)
Definition accumulated_frame (self : CreateNsAudioPackage) (data : bytes)
  : list OggSFrame :=
  match data, OggSFrame_new data with
  | _ :: _, Some frame => if truthy (header_frames self) then [] else [frame]
  | _, _ => []
  end.

Fixpoint accumulated_frames (self : CreateNsAudioPackage) (pages : list bytes)
  : list OggSFrame :=
  match pages with
  | [] => []
  | data :: rest =>
      accumulated_frame self data
        ++ accumulated_frames (fst (execute self data)) rest
  end.

End Execute.

(** ** Runs and sequences of accepted pages *)

(** While the headers are missing nothing has reached the window. *)
Definition awaiting_inv (self : CreateNsAudioPackage) : Prop :=
  truthy (header_frames self) = false ->
  audio_data_buffer self = [] /\ current_audio_buffer_seconds self = 0%Q.

(** The configuration set by [__init__]. *)
Definition config_inv (self : CreateNsAudioPackage) : Prop :=
  sample_rate self = 48000%positive /\ last_n_seconds self = 10.

(** The window updates of a sequence of accepted pages, in order. *)
Fixpoint feed (self : CreateNsAudioPackage) (frames : list OggSFrame)
  : CreateNsAudioPackage :=
  match frames with
  | [] => self
  | frame :: rest => feed (fst (update_window self frame)) rest
  end.

Definition gps (frames : list OggSFrame) : list Z :=
  map granule_position frames.



(** ** A page parser for the examples

    Modelled from the spec: the Page Parser (module [extract_ogg], with
    [OggSFrame] and [get_header_frames]) is not among the sources.  The
    spec asks of it to "parse raw bytes into a structured page exposing
    granule position and raw bytes" and to "detect identification +
    comment header pages within an accumulated byte buffer, returning
    absence if incomplete".  This instance reads the Ogg page layout
    (capture pattern "OggS", granule position in bytes 6-13, segment count
    in byte 26, then the segment table and the payload) and recognizes the
    header pages by the payload prefixes "OpusHead" and "OpusTags".  It is
    used only to run [execute] on concrete byte strings; every general
    theorem below holds for an arbitrary [PageParser]. *)
Module OggModel.

Definition capture_pattern : bytes := String.list_byte_of_string "OggS"%string.
Definition opus_head : bytes := String.list_byte_of_string "OpusHead"%string.
Definition opus_tags : bytes := String.list_byte_of_string "OpusTags"%string.

Fixpoint starts_with (prefix data : bytes) : bool :=
  match prefix, data with
  | [], _ => true
  | p :: prefix', d :: data' => Byte.eqb p d && starts_with prefix' data'
  | _ :: _, [] => false
  end.

Definition byte_to_nat (b : Byte.byte) : nat := N.to_nat (Byte.to_N b).

Definition byte_of_Z (z : Z) : Byte.byte :=
  match Byte.of_N (Z.to_N z) with
  | Some b => b
  | None => Byte.x00
  end.

(** Little-endian integers. *)
Definition le_to_Z (bs : bytes) : Z :=
  fold_right (fun b acc => Z.of_nat (byte_to_nat b) + 256 * acc) 0 bs.

Definition le64 (z : Z) : bytes :=
  map (fun i => byte_of_Z ((z / 256 ^ i) mod 256)) [0; 1; 2; 3; 4; 5; 6; 7].

Definition slice (data : bytes) (start len : nat) : bytes :=
  firstn len (skipn start data).

(** The first page of [data] and its payload; [None] when [data] does not
    start with a complete page. *)
Definition parse_page (data : bytes) : option (OggSFrame * bytes) :=
  if starts_with capture_pattern data && (27 <=? length data)%nat then
    let page_segments := byte_to_nat (nth 26 data Byte.x00) in
    let segment_table := slice data 27 page_segments in
    let payload_size :=
      fold_right (fun b n => (byte_to_nat b + n)%nat) 0%nat segment_table in
    let page_size := (27 + page_segments + payload_size)%nat in
    if (page_size <=? length data)%nat then
      Some ({| raw_data := firstn page_size data;
               granule_position := le_to_Z (slice data 6 8) |},
            slice data (27 + page_segments) payload_size)
    else None
  else None.

(** All the complete pages at the start of [data]; a page takes at least
    27 bytes, so [length data] rounds are enough. *)
Fixpoint split_pages (rounds : nat) (data : bytes) : list (OggSFrame * bytes) :=
  match rounds with
  | O => []
  | S rounds' =>
      match parse_page data with
      | None => []
      | Some (frame, payload) =>
          (frame, payload)
            :: split_pages rounds' (skipn (length (raw_data frame)) data)
      end
  end.

Definition split_ogg_data_into_frames (data : bytes) : list OggSFrame :=
  map fst (split_pages (length data) data).

Definition find_header_frames (data : bytes)
  : option OggSFrame * list OggSFrame :=
  let pages := split_pages (length data) data in
  (option_map fst (find (fun p => starts_with opus_head (snd p)) pages),
   map fst (filter (fun p => starts_with opus_tags (snd p)) pages)).

#[export] Instance ogg_parser : PageParser :=
  {| OggSFrame_new := fun data => option_map fst (parse_page data);
     get_header_frames := find_header_frames |}.

(** A page with granule position [gp] and a one-segment payload. *)
Definition ogg_page (gp : Z) (payload : bytes) : bytes :=
  capture_pattern ++ [Byte.x00; Byte.x00] ++ le64 gp ++ repeat Byte.x00 12
    ++ [Byte.x01; byte_of_Z (Z.of_nat (length payload))] ++ payload.

Definition id_page : bytes := ogg_page 0 opus_head.
Definition tags_page (gp : Z) : bytes := ogg_page gp opus_tags.
Definition audio_page (gp : Z) : bytes :=
  ogg_page gp (String.list_byte_of_string "audio"%string).

Definition frame_of (page : bytes) (gp : Z) : OggSFrame :=
  {| raw_data := page; granule_position := gp |}.

End OggModel.

(** ** Example streams and states *)

Module Runs.
Import OggModel.

(** The frames of the example pages. *)
Definition id0 : OggSFrame := frame_of id_page 0.
Definition tags (gp : Z) : OggSFrame := frame_of (tags_page gp) gp.
Definition audio (gp : Z) : OggSFrame := frame_of (audio_page gp) gp.

Definition junk : bytes := String.list_byte_of_string "junk"%string.

(** After the identification page: headers still missing. *)
Definition awaiting_state : CreateNsAudioPackage :=
  fst (run init [id_page]).

(** After the comment page: headers captured, the comment page in the
    window, cumulative duration 0. *)
Definition captured_state : CreateNsAudioPackage :=
  fst (run init [id_page; tags_page 0]).

(** After one audio page of half a second. *)
Definition streaming_state : CreateNsAudioPackage :=
  fst (run init [id_page; tags_page 0; audio_page 24000]).

(** After a jump of twenty seconds: one page evicted, twenty seconds left. *)
Definition overfull_state : CreateNsAudioPackage :=
  fst (run init [id_page; tags_page 0; audio_page 24000; audio_page 984000]).


(** [self] with its accumulator emptied. *)
Definition discard_accumulator (self : CreateNsAudioPackage) : CreateNsAudioPackage :=
  {| audio_data_buffer := audio_data_buffer self;
     sample_rate := sample_rate self;
     last_n_seconds := last_n_seconds self;
     current_audio_buffer_seconds := current_audio_buffer_seconds self;
     header_buffer := [];
     header_frames := header_frames self |}.

(** The raw bytes of the frames in [header_frames]. *)
Definition header_set_bytes (self : CreateNsAudioPackage) : bytes :=
  match header_frames self with
  | Some frames => join_raw frames
  | None => []
  end.


(** The header pages followed by [n] audio pages of half a second. *)
Definition half_seconds (n : nat) : list bytes :=
  id_page :: tags_page 0
    :: map (fun k => audio_page (24000 * Z.of_nat k)) (seq 1 n).

End Runs.

(** ** Vocabulary for the window accounting *)


(** ** More example states *)

Module MoreRuns.
Import OggModel Runs.


End MoreRuns.

(** ** The same code in binary64 arithmetic

    Lines 17-22 and 42-89 once more, with the durations as the binary64
    floats of the source instead of exact rationals.  The floats are the
    [spec_float]s of the standard library at precision 53 and exponent
    bound 1024: [add] and [sub] round to nearest, ties to even, as
    Python's [+] and [-] on floats do; [true_divide] is Python's [/] on
    two [int]s, the correctly rounded quotient, which raises
    [OverflowError] when the quotient is beyond the largest float.  The
    comparison of the cumulative duration (a float) with
    [self.last_n_seconds] (an [int]) is exact, as in Python. *)
Module Binary64.

Definition float : Type := spec_float.
Definition prec : Z := 53.
Definition emax : Z := 1024.

(** [0.0]. *)
Definition zero : float := S754_zero false.

Definition add (x y : float) : float := SFadd prec emax x y.
Definition sub (x y : float) : float := SFsub prec emax x y.

(** [x > y] on floats. *)
Definition gt (x y : float) : bool := SFltb y x.

(** A Python [int] as an operand of the division: the integer itself,
    with exponent 0. *)
Definition int_operand (z : Z) : float :=
  match z with
  | Z0 => S754_zero false
  | Zpos m => S754_finite false m 0
  | Zneg m => S754_finite true m 0
  end.

(** [a / b] on Python [int]s, for [b > 0]; [None] is [OverflowError]. *)
Definition true_divide (a : Z) (b : positive) : option float :=
  match SFdiv prec emax (int_operand a) (S754_finite false b 0) with
  | S754_infinity _ => None
  | quotient => Some quotient
  end.

(** The exact comparison of a float with a Python [int]; [None] when the
    float is a NaN. *)
Definition compare_int (x : float) (z : Z) : option comparison :=
  match x with
  | S754_nan => None
  | S754_infinity s => Some (if s then Lt else Gt)
  | S754_zero _ => Some (0 ?= z)
  | S754_finite s m e =>
      let n := cond_Zopp s (Zpos m) in
      match e with
      | Zneg p => Some (n ?= z * 2 ^ Zpos p)
      | _ => Some (n * 2 ^ e ?= z)
      end
  end.

(** [x >= z] for a float [x] and an [int] [z]. *)
Definition ge_int (x : float) (z : Z) : bool :=
  match compare_int x z with
  | Some Gt | Some Eq => true
  | _ => false
  end.

(** The duration is zero or has the sign bit clear: [+0.0] or a positive
    float; respectively the sign bit set: [-0.0] or a negative float. *)
Definition sign_clear (x : float) : Prop :=
  match x with
  | S754_zero false | S754_finite false _ _ => True
  | _ => False
  end.

Definition sign_set (x : float) : Prop :=
  match x with
  | S754_zero true | S754_finite true _ _ => True
  | _ => False
  end.

Record CreateNsAudioPackage : Type := {
  audio_data_buffer : list OggSFrame;
  sample_rate : positive;
  last_n_seconds : Z;
  current_audio_buffer_seconds : float;
  header_buffer : bytes;
  header_frames : option (list OggSFrame)
}.

(** [__init__] (lines 25-40).  The cumulative duration starts as the
    [int] 0; the first [+=] converts it to [0.0]. *)
Definition init : CreateNsAudioPackage := {|
  audio_data_buffer := [];
  sample_rate := 48000;
  last_n_seconds := 10;
  current_audio_buffer_seconds := zero;
  header_buffer := [];
  header_frames := None
|}.

Definition set_window (self : CreateNsAudioPackage)
    (buf : list OggSFrame) (seconds : float) : CreateNsAudioPackage := {|
  audio_data_buffer := buf;
  sample_rate := sample_rate self;
  last_n_seconds := last_n_seconds self;
  current_audio_buffer_seconds := seconds;
  header_buffer := header_buffer self;
  header_frames := header_frames self
|}.

Definition set_header_buffer (self : CreateNsAudioPackage) (hb : bytes)
  : CreateNsAudioPackage := {|
  audio_data_buffer := audio_data_buffer self;
  sample_rate := sample_rate self;
  last_n_seconds := last_n_seconds self;
  current_audio_buffer_seconds := current_audio_buffer_seconds self;
  header_buffer := hb;
  header_frames := header_frames self
|}.

Definition set_header_frames (self : CreateNsAudioPackage)
    (hf : option (list OggSFrame)) : CreateNsAudioPackage := {|
  audio_data_buffer := audio_data_buffer self;
  sample_rate := sample_rate self;
  last_n_seconds := last_n_seconds self;
  current_audio_buffer_seconds := current_audio_buffer_seconds self;
  header_buffer := header_buffer self;
  header_frames := hf
|}.

Inductive Exception : Type :=
| ParseFailure    (* raised by OggSFrame(dp.data) *)
| IndexError      (* list.pop(0) on an empty list *)
| OverflowError.  (* int / int beyond the float range *)

Inductive Outcome : Type :=
| Raise (e : Exception)
| HeadersIncomplete
| NoUpdate
| Emitted (blob : bytes).

(** Lines 17-22. *)
Definition calculate_frame_duration
    (current_granule_position : Z) (previous_granule_position : option Z)
    (sample_rate : positive) : option float :=
  match previous_granule_position with
  | None => Some zero
  | Some previous =>
      true_divide (current_granule_position - previous) sample_rate
  end.

(** Lines 63-89.  An [OverflowError] of line 67 leaves the state as it
    was; one of line 82 comes after the append, the [+=] and the
    [pop(0)]. *)
Definition update_window (self : CreateNsAudioPackage) (frame : OggSFrame)
  : CreateNsAudioPackage * Outcome :=
  let current_granule_position := granule_position frame in
  let previous := previous_granule_position (audio_data_buffer self) in
  match calculate_frame_duration current_granule_position (Some previous)
          (sample_rate self) with
  | None => (self, Raise OverflowError)
  | Some frame_duration =>
      let buffer1 := audio_data_buffer self ++ [frame] in
      let seconds1 := add (current_audio_buffer_seconds self) frame_duration in
      if gt frame_duration zero then
        if ge_int seconds1 (last_n_seconds self) then
          match buffer1 with
          | [] => (set_window self buffer1 seconds1, Raise IndexError)
          | pop_frame :: buffer2 =>
              let pop_frame_granule_position := granule_position pop_frame in
              let next_frame_granule_position :=
                match buffer2 with
                | next :: _ => granule_position next
                | [] => pop_frame_granule_position
                end in
              match calculate_frame_duration next_frame_granule_position
                      (Some pop_frame_granule_position) (sample_rate self) with
              | None => (set_window self buffer2 seconds1, Raise OverflowError)
              | Some pop_frame_duration =>
                  (set_window self buffer2 (sub seconds1 pop_frame_duration),
                   Emitted (header_buffer self ++ join_raw buffer2))
              end
          end
        else
          (set_window self buffer1 seconds1,
           Emitted (header_buffer self ++ join_raw buffer1))
      else
        (set_window self buffer1 seconds1, NoUpdate)
  end.

Section Execute.
Context {parser : PageParser}.

(** Lines 42-89. *)
Definition execute (self : CreateNsAudioPackage) (data : bytes)
  : CreateNsAudioPackage * Outcome :=
  match data with
  | [] => (self, NoUpdate)
  | _ :: _ =>
      match OggSFrame_new data with
      | None => (self, Raise ParseFailure)
      | Some frame =>
          if truthy (header_frames self) then update_window self frame
          else
            let self1 :=
              set_header_buffer self (header_buffer self ++ raw_data frame) in
            match get_header_frames (header_buffer self1) with
            | (Some id_header_frame, (_ :: _) as comment_header_frames) =>
                update_window
                  (set_header_frames self1
                     (Some ([id_header_frame] ++ comment_header_frames)))
                  frame
            | _ => (self1, HeadersIncomplete)
            end
      end
  end.

Fixpoint run (self : CreateNsAudioPackage) (pages : list bytes)
  : CreateNsAudioPackage * list Outcome :=
  match pages with
  | [] => (self, [])
  | data :: rest =>
      let (self1, out) := execute self data in
      let (self2, outs) := run self1 rest in
      (self2, out :: outs)
  end.

End Execute.

(** Accepted pages in a row, as long as no call raises. *)
Fixpoint feed (self : CreateNsAudioPackage) (frames : list OggSFrame)
  : CreateNsAudioPackage :=
  match frames with
  | [] => self
  | frame :: rest => feed (fst (update_window self frame)) rest
  end.

End Binary64.

(** ** Example states in binary64 *)

Module FloatRuns.
Import OggModel Runs.


(** Half a second in the window. *)
Definition half_second_state : Binary64.CreateNsAudioPackage :=
  fst (Binary64.run Binary64.init [id_page; tags_page 0; audio_page 24000]).

(** A window that spans 2^54 samples: its cumulative duration,
    6148914691236517 * 2^-14 seconds (about 375299968947.54), has a last
    binary digit worth 2^-14 seconds, more than twice the duration of
    one sample. *)
Definition distant_state : Binary64.CreateNsAudioPackage :=
  fst (Binary64.run Binary64.init
         [id_page; tags_page 0; audio_page 1; audio_page (2 ^ 54 + 1)]).

(** Floats of the examples. *)
Definition minus_quarter : Binary64.float := S754_finite true 4503599627370496 (-54).

End FloatRuns.

(** * Properties *)

(** ** Basic facts about the helpers *)

Lemma Qgtb_true (x y : Q) : Qgtb x y = true <-> (y < x)%Q.
Proof.
  unfold Qgtb. rewrite Qlt_alt, <- (Qcompare_antisym x y).
  destruct (x ?= y)%Q; simpl; split; congruence.
Qed.

Lemma Qgtb_false (x y : Q) : Qgtb x y = false <-> (x <= y)%Q.
Proof.
  unfold Qgtb. rewrite Qle_alt.
  destruct (x ?= y)%Q; split; congruence.
Qed.

Lemma Qgeb_true (x y : Q) : Qgeb x y = true <-> (y <= x)%Q.
Proof.
  unfold Qgeb. rewrite Qle_alt, <- (Qcompare_antisym x y).
  destruct (x ?= y)%Q; simpl; split; congruence.
Qed.

Lemma Qgeb_false (x y : Q) : Qgeb x y = false <-> (x < y)%Q.
Proof.
  unfold Qgeb. rewrite Qlt_alt.
  destruct (x ?= y)%Q; split; congruence.
Qed.

Lemma last_frame_snoc (buf : list OggSFrame) (f : OggSFrame) :
  last_frame (buf ++ [f]) = Some f.
Proof. unfold last_frame. rewrite rev_unit. reflexivity. Qed.



Lemma join_raw_app (a b : list OggSFrame) :
  join_raw (a ++ b) = join_raw a ++ join_raw b.
Proof. unfold join_raw. rewrite map_app, concat_app. reflexivity. Qed.

(** Sign of a frame duration: it follows the sign of the advance. *)
Lemma duration_pos (cur prev : Z) (rate : positive) :
  (0 < calculate_frame_duration cur (Some prev) rate)%Q <-> prev < cur.
Proof. unfold calculate_frame_duration, Qlt; simpl. lia. Qed.

Lemma duration_nonpos (cur prev : Z) (rate : positive) :
  (calculate_frame_duration cur (Some prev) rate <= 0)%Q <-> cur <= prev.
Proof. unfold calculate_frame_duration, Qle; simpl. lia. Qed.

Lemma duration_neg (cur prev : Z) (rate : positive) :
  (calculate_frame_duration cur (Some prev) rate < 0)%Q <-> cur < prev.
Proof. unfold calculate_frame_duration, Qlt; simpl. lia. Qed.

Lemma duration_zero (cur : Z) (rate : positive) :
  (calculate_frame_duration cur (Some cur) rate == 0)%Q.
Proof. unfold calculate_frame_duration, Qeq; simpl. lia. Qed.

Lemma duration_le (a b : Z) (rate : positive) :
  a <= b -> ((a # rate) <= (b # rate))%Q.
Proof. unfold Qle; simpl. nia. Qed.

(** ** One window update, case by case *)

Lemma update_window_still (self : CreateNsAudioPackage) (frame : OggSFrame) :
  (frame_duration_of self frame <= 0)%Q ->
  update_window self frame =
    (set_window self (audio_data_buffer self ++ [frame])
       (current_audio_buffer_seconds self + frame_duration_of self frame)%Q,
     NoUpdate).
Proof.
  intro H. unfold update_window.
  fold (previous_granule_position (audio_data_buffer self)).
  fold (frame_duration_of self frame).
  rewrite (proj2 (Qgtb_false _ _) H). reflexivity.
Qed.

Lemma update_window_grow (self : CreateNsAudioPackage) (frame : OggSFrame) :
  (0 < frame_duration_of self frame)%Q ->
  (current_audio_buffer_seconds self + frame_duration_of self frame
   < inject_Z (last_n_seconds self))%Q ->
  update_window self frame =
    (set_window self (audio_data_buffer self ++ [frame])
       (current_audio_buffer_seconds self + frame_duration_of self frame)%Q,
     Emitted (header_buffer self ++ join_raw (audio_data_buffer self ++ [frame]))).
Proof.
  intros Hpos Hlt. unfold update_window.
  fold (previous_granule_position (audio_data_buffer self)).
  fold (frame_duration_of self frame).
  rewrite (proj2 (Qgtb_true _ _) Hpos), (proj2 (Qgeb_false _ _) Hlt).
  reflexivity.
Qed.

Lemma update_window_evict
    (self : CreateNsAudioPackage) (frame pop_frame : OggSFrame)
    (rest : list OggSFrame) :
  (0 < frame_duration_of self frame)%Q ->
  (inject_Z (last_n_seconds self)
   <= current_audio_buffer_seconds self + frame_duration_of self frame)%Q ->
  audio_data_buffer self ++ [frame] = pop_frame :: rest ->
  update_window self frame =
    (set_window self rest
       (current_audio_buffer_seconds self + frame_duration_of self frame
        - calculate_frame_duration
            (granule_position (hd pop_frame rest))
            (Some (granule_position pop_frame)) (sample_rate self))%Q,
     Emitted (header_buffer self ++ join_raw rest)).
Proof.
  intros Hpos Hge Hbuf. unfold update_window.
  fold (previous_granule_position (audio_data_buffer self)).
  fold (frame_duration_of self frame).
  rewrite (proj2 (Qgtb_true _ _) Hpos), (proj2 (Qgeb_true _ _) Hge), Hbuf.
  destruct rest; reflexivity.
Qed.

(** The three cases cover every update. *)
Lemma update_window_cases (self : CreateNsAudioPackage) (frame : OggSFrame) :
  (frame_duration_of self frame <= 0)%Q \/
  ((0 < frame_duration_of self frame)%Q /\
   (current_audio_buffer_seconds self + frame_duration_of self frame
    < inject_Z (last_n_seconds self))%Q) \/
  ((0 < frame_duration_of self frame)%Q /\
   (inject_Z (last_n_seconds self)
    <= current_audio_buffer_seconds self + frame_duration_of self frame)%Q /\
   exists pop_frame rest, audio_data_buffer self ++ [frame] = pop_frame :: rest).
Proof.
  destruct (Qlt_le_dec 0 (frame_duration_of self frame)) as [Hp|Hn];
    [|left; assumption].
  right.
  destruct (Qlt_le_dec
              (current_audio_buffer_seconds self + frame_duration_of self frame)
              (inject_Z (last_n_seconds self))) as [Hl|Hg];
    [left; split; assumption|].
  right. repeat split; try assumption.
  destruct (audio_data_buffer self) as [|h t]; simpl; eauto.
Qed.

Ltac update_cases self frame :=
  let H := fresh "Hstill" in
  let H1 := fresh "Hpos" in
  let H2 := fresh "Hcmp" in
  let H3 := fresh "Hbuf" in
  let p := fresh "pop_frame" in
  let r := fresh "rest" in
  destruct (update_window_cases self frame)
    as [H | [[H1 H2] | [H1 [H2 [p [r H3]]]]]];
  [ rewrite (update_window_still _ _ H)
  | rewrite (update_window_grow _ _ H1 H2)
  | rewrite (update_window_evict _ _ _ _ H1 H2 H3) ].

(** [pop(0)] never fails in [update_window]: the frame was just
    appended. *)
Lemma update_window_no_exception (self : CreateNsAudioPackage) (frame : OggSFrame) :
  forall e, snd (update_window self frame) <> Raise e.
Proof. intro e. update_cases self frame; discriminate. Qed.

(** What an update never touches. *)
Lemma update_window_frame_rule (self : CreateNsAudioPackage) (frame : OggSFrame) :
  header_buffer (fst (update_window self frame)) = header_buffer self /\
  header_frames (fst (update_window self frame)) = header_frames self /\
  sample_rate (fst (update_window self frame)) = sample_rate self /\
  last_n_seconds (fst (update_window self frame)) = last_n_seconds self.
Proof. update_cases self frame; simpl; auto. Qed.

(** Every emitted blob is the accumulator followed by the window. *)
Lemma update_window_emitted
    (self self' : CreateNsAudioPackage) (frame : OggSFrame) (blob : bytes) :
  update_window self frame = (self', Emitted blob) ->
  blob = header_buffer self' ++ join_raw (audio_data_buffer self').
Proof.
  update_cases self frame; intro E; try discriminate;
    injection E as <- <-; reflexivity.
Qed.

(** The first update of an empty window, with the initial configuration
    and a cumulative duration of zero. *)
Lemma first_update (self : CreateNsAudioPackage) (frame : OggSFrame) :
  audio_data_buffer self = [] ->
  current_audio_buffer_seconds self = 0%Q ->
  config_inv self ->
  audio_data_buffer (fst (update_window self frame))
  = if granule_position frame <? 480000 then [frame] else [].
Proof.
  intros Hw Hc [Hr Ht].
  assert (Hd : frame_duration_of self frame = (granule_position frame - 0 # 48000)%Q).
  { unfold frame_duration_of, previous_granule_position.
    rewrite Hw, Hr. reflexivity. }
  update_cases self frame; simpl.
  - rewrite Hd in Hstill. unfold Qle in Hstill. simpl in Hstill.
    rewrite Hw. destruct (Z.ltb_spec (granule_position frame) 480000);
      [reflexivity|lia].
  - rewrite Hd, Hc, Ht in Hcmp. unfold Qlt, Qplus in Hcmp. simpl in Hcmp.
    rewrite Hw. destruct (Z.ltb_spec (granule_position frame) 480000);
      [reflexivity|lia].
  - rewrite Hd, Hc, Ht in Hcmp. unfold Qle, Qplus in Hcmp. simpl in Hcmp.
    rewrite Hw in Hbuf. injection Hbuf as _ <-.
    destruct (Z.ltb_spec (granule_position frame) 480000);
      [lia|reflexivity].
Qed.

(** ** The paths through [execute] *)

Section Properties.
Context {parser : PageParser}.

Lemma execute_pathP (self : CreateNsAudioPackage) (data : bytes) :
  execute_path self data (execute self data).
Proof.
  unfold execute.
  destruct data as [|b data]; [constructor; reflexivity|].
  destruct (OggSFrame_new (b :: data)) as [frame|] eqn:Hp;
    [|constructor; [discriminate|assumption]].
  destruct (truthy (header_frames self)) eqn:Hh.
  { apply path_streaming; [discriminate|assumption|assumption]. }
  change (header_buffer (accumulated self frame))
    with (header_buffer self ++ raw_data frame).
  destruct (get_header_frames (header_buffer self ++ raw_data frame))
    as [[id|] [|c cs]] eqn:Hg.
  - apply (path_incomplete self (b :: data) frame);
      [discriminate|assumption|assumption|congruence].
  - apply (path_capture self (b :: data) frame id c cs);
      [discriminate|assumption|assumption|assumption].
  - apply (path_incomplete self (b :: data) frame);
      [discriminate|assumption|assumption|congruence].
  - apply (path_incomplete self (b :: data) frame);
      [discriminate|assumption|assumption|congruence].
Qed.

Ltac execute_paths self data :=
  let frame := fresh "frame" in
  let id := fresh "id" in
  let c := fresh "c" in
  let cs := fresh "cs" in
  let Hd := fresh "Hdata" in
  let Hp := fresh "Hparse" in
  let Hh := fresh "Hheaders" in
  let Hg := fresh "Hfound" in
  destruct (execute_pathP self data)
    as [ Hd | Hd Hp | frame Hd Hp Hh | frame Hd Hp Hh Hg
       | frame id c cs Hd Hp Hh Hg ].

(** In the streaming state a non-empty payload that parses goes straight
    to the window update. *)
Lemma execute_streaming (self : CreateNsAudioPackage) (data : bytes) (frame : OggSFrame) :
  truthy (header_frames self) = true ->
  data <> [] ->
  OggSFrame_new data = Some frame ->
  execute self data = update_window self frame.
Proof.
  intros Hh Hd Hp. unfold execute.
  destruct data; [congruence|]. rewrite Hp, Hh. reflexivity.
Qed.

(** The call that finds the headers. *)
Lemma execute_capture
    (self : CreateNsAudioPackage) (data : bytes) (frame id c : OggSFrame)
    (cs : list OggSFrame) :
  truthy (header_frames self) = false ->
  data <> [] ->
  OggSFrame_new data = Some frame ->
  get_header_frames (header_buffer self ++ raw_data frame) = (Some id, c :: cs) ->
  execute self data = update_window (captured self frame id (c :: cs)) frame.
Proof.
  intros Hh Hd Hp Hg. unfold execute.
  destruct data; [congruence|]. rewrite Hp, Hh.
  change (header_buffer (accumulated self frame))
    with (header_buffer self ++ raw_data frame).
  rewrite Hg. reflexivity.
Qed.

(** ** Empty payloads and malformed pages *)

(** C10.  A call whose payload is empty is a complete no-op, whatever the
    state and whatever the parser would say of the empty payload (the
    parser is not consulted): the outcome is [NoUpdate] -- no exception,
    no failure message, no blob -- and the returned state is the given
    one, with its window, cumulative duration, header accumulator and
    header frames. *)
Theorem execute_empty_payload (self : CreateNsAudioPackage) :
  execute self [] = (self, NoUpdate).
Proof. reflexivity. Qed.

(** C7, as amended.  For every state and every non-empty payload that the
    parser rejects, [execute] raises the parser's exception and the state
    (window, cumulative duration, header frames, accumulator) is the one
    before the call. *)
Theorem execute_malformed_page (self : CreateNsAudioPackage) (data : bytes) :
  data <> [] ->
  OggSFrame_new data = None ->
  execute self data = (self, Raise ParseFailure).
Proof.
  intros Hd Hp. unfold execute.
  destruct data as [|b data]; [congruence|].
  rewrite Hp. reflexivity.
Qed.

(** ** Pages that do not advance the granule position *)

(** C8.  In the streaming state with a non-empty window, a page whose
    granule position equals that of the window's tail leaves the
    cumulative duration unchanged and produces no blob. *)
Theorem same_granule_no_update
    (self : CreateNsAudioPackage) (data : bytes) (frame lf : OggSFrame) :
  truthy (header_frames self) = true ->
  last_frame (audio_data_buffer self) = Some lf ->
  OggSFrame_new data = Some frame ->
  granule_position frame = granule_position lf ->
  snd (execute self data) = NoUpdate /\
  (current_audio_buffer_seconds (fst (execute self data))
   == current_audio_buffer_seconds self)%Q.
Proof.
  intros Hh Hl Hp Hg.
  destruct data as [|b data].
  - split; reflexivity.
  - rewrite (execute_streaming self (b :: data) frame Hh) by (assumption || discriminate).
    assert (Hd : frame_duration_of self frame
                 = calculate_frame_duration (granule_position lf)
                     (Some (granule_position lf)) (sample_rate self)).
    { unfold frame_duration_of, previous_granule_position. rewrite Hl, Hg.
      reflexivity. }
    pose proof (duration_zero (granule_position lf) (sample_rate self)) as Hz.
    rewrite <- Hd in Hz.
    rewrite update_window_still by (rewrite Hz; apply Qle_refl).
    split; [reflexivity|]. simpl. rewrite Hz. apply Qplus_0_r.
Qed.

(** ** Eviction *)


(** ** The emitted blob and the header accumulator *)

Lemma blob_of_emission
    (self self' : CreateNsAudioPackage) (data blob : bytes) :
  execute self data = (self', Emitted blob) ->
  blob = header_buffer self' ++ join_raw (audio_data_buffer self').
Proof.
  execute_paths self data; intro E; try discriminate;
    eapply update_window_emitted; exact E.
Qed.

(** Each call extends the accumulator by the bytes of its page while the
    headers are missing, and leaves it alone otherwise. *)
Lemma execute_header_buffer (self : CreateNsAudioPackage) (data : bytes) :
  header_buffer (fst (execute self data))
  = header_buffer self ++ join_raw (accumulated_frame self data).
Proof.
  unfold accumulated_frame.
  execute_paths self data.
  - subst data. simpl. rewrite app_nil_r. reflexivity.
  - destruct data; [congruence|]. rewrite Hparse. simpl.
    rewrite app_nil_r. reflexivity.
  - destruct data; [congruence|]. rewrite Hparse, Hheaders.
    rewrite (proj1 (update_window_frame_rule self frame)).
    simpl. rewrite app_nil_r. reflexivity.
  - destruct data; [congruence|]. rewrite Hparse, Hheaders.
    unfold join_raw. simpl. rewrite app_nil_r. reflexivity.
  - destruct data; [congruence|]. rewrite Hparse, Hheaders.
    rewrite (proj1 (update_window_frame_rule _ frame)).
    unfold join_raw. simpl. rewrite app_nil_r. reflexivity.
Qed.

Lemma run_cons (self : CreateNsAudioPackage) (data : bytes) (rest : list bytes) :
  fst (run self (data :: rest)) = fst (run (fst (execute self data)) rest).
Proof.
  simpl. destruct (execute self data) as [self1 out]. simpl.
  destruct (run self1 rest) as [self2 outs]. reflexivity.
Qed.

Lemma run_header_buffer (pages : list bytes) :
  forall self,
    header_buffer (fst (run self pages))
    = header_buffer self ++ join_raw (accumulated_frames self pages).
Proof.
  induction pages as [|data rest IH]; intro self.
  - simpl. rewrite app_nil_r. reflexivity.
  - rewrite run_cons, IH, execute_header_buffer. simpl.
    rewrite join_raw_app, app_assoc. reflexivity.
Qed.

Lemma accumulated_frames_snoc (pages : list bytes) (data : bytes) :
  forall self,
    accumulated_frames self (pages ++ [data])
    = accumulated_frames self pages
        ++ accumulated_frame (fst (run self pages)) data.
Proof.
  induction pages as [|d rest IH]; intro self.
  - simpl. rewrite app_nil_r. reflexivity.
  - rewrite run_cons. simpl. rewrite IH, app_assoc. reflexivity.
Qed.

(** C2, as amended.  For every call that emits, after any run of earlier
    calls, the emitted blob is the header accumulator followed by the raw
    bytes of every page in the window after the call, in order, and
    nothing else; the accumulator is what it was at the start of the run
    followed by the raw bytes of every page received while the headers
    were missing, up to and including the page of the call that found
    them.  So, when the run starts with an empty accumulator, a parser
    that splits the concatenated raw bytes of these pages back into the
    pages yields, on the blob, the accumulated pages followed by exactly
    the window's pages.  The accumulator is the raw bytes of the frames
    in [header_frames] only when those were the only pages received
    until then. *)
Theorem emitted_blob
    (self self' : CreateNsAudioPackage) (pages : list bytes) (data blob : bytes) :
  execute (fst (run self pages)) data = (self', Emitted blob) ->
  blob = header_buffer self' ++ join_raw (audio_data_buffer self') /\
  header_buffer self'
  = header_buffer self ++ join_raw (accumulated_frames self (pages ++ [data])) /\
  (header_buffer self = [] ->
   forall split : bytes -> list OggSFrame,
     let received :=
       accumulated_frames self (pages ++ [data]) ++ audio_data_buffer self' in
     split (join_raw received) = received ->
     split blob = received).
Proof.
  intro E.
  assert (Hblob : blob = header_buffer self' ++ join_raw (audio_data_buffer self'))
    by exact (blob_of_emission _ _ _ _ E).
  assert (Hacc : header_buffer self'
                 = header_buffer self
                     ++ join_raw (accumulated_frames self (pages ++ [data]))).
  { pose proof (execute_header_buffer (fst (run self pages)) data) as H.
    rewrite E in H. simpl in H.
    rewrite H, run_header_buffer, accumulated_frames_snoc, join_raw_app, app_assoc.
    reflexivity. }
  split; [exact Hblob|]. split; [exact Hacc|].
  intros Hnil split received Hsplit.
  rewrite Hblob, Hacc, Hnil. simpl.
  rewrite <- join_raw_app. exact Hsplit.
Qed.

(** C6, as amended.  On the call where the identification frame and the
    comment frames are first found, [header_frames] becomes the
    identification frame followed by the comment frames, and the
    accumulator is not discarded: it keeps the bytes gathered so far,
    this call's page included.  On every call in the streaming state
    [header_frames] and the accumulator are left as they are.  The
    accumulator is the prefix of every emitted blob. *)
Theorem header_capture_keeps_accumulator
    (self self' : CreateNsAudioPackage) (data : bytes) (out : Outcome) :
  execute self data = (self', out) ->
  (truthy (header_frames self) = false ->
   truthy (header_frames self') = true ->
   exists frame id c cs,
     OggSFrame_new data = Some frame /\
     get_header_frames (header_buffer self ++ raw_data frame)
       = (Some id, c :: cs) /\
     header_frames self' = Some (id :: c :: cs) /\
     header_buffer self' = header_buffer self ++ raw_data frame) /\
  (truthy (header_frames self) = true ->
   header_frames self' = header_frames self /\
   header_buffer self' = header_buffer self) /\
  (forall blob, out = Emitted blob ->
     blob = header_buffer self' ++ join_raw (audio_data_buffer self')).
Proof.
  intro E. split; [|split].
  - revert E. execute_paths self data; intros E Hf Ht.
    + injection E as <- _. congruence.
    + injection E as <- _. congruence.
    + congruence.
    + injection E as <- _. simpl in Ht. congruence.
    + exists frame, id, c, cs.
      pose proof (update_window_frame_rule (captured self frame id (c :: cs)) frame)
        as [Hb [Hf' _]].
      rewrite E in Hb, Hf'. simpl in Hb, Hf'. auto.
  - revert E. execute_paths self data; intros E Ht; try congruence.
    + injection E as <- _. auto.
    + injection E as <- _. auto.
    + pose proof (update_window_frame_rule self frame) as [Hb [Hf' _]].
      rewrite E in Hb, Hf'. simpl in Hb, Hf'. auto.
  - intros blob ->. eapply blob_of_emission. exact E.
Qed.

(** ** Runs from the initial state *)

Lemma execute_awaiting_inv (self : CreateNsAudioPackage) (data : bytes) :
  awaiting_inv self -> awaiting_inv (fst (execute self data)).
Proof.
  intro I. execute_paths self data.
  - exact I.
  - exact I.
  - intro Hf.
    pose proof (update_window_frame_rule self frame) as [_ [Hf' _]].
    congruence.
  - exact I.
  - intro Hf.
    pose proof (update_window_frame_rule (captured self frame id (c :: cs)) frame)
      as [_ [Hf' _]].
    rewrite Hf' in Hf. discriminate.
Qed.

Lemma execute_config_inv (self : CreateNsAudioPackage) (data : bytes) :
  config_inv self -> config_inv (fst (execute self data)).
Proof.
  intros [Hr Ht]. execute_paths self data.
  - split; assumption.
  - split; assumption.
  - pose proof (update_window_frame_rule self frame) as [_ [_ [Hr' Ht']]].
    split; congruence.
  - split; assumption.
  - pose proof (update_window_frame_rule (captured self frame id (c :: cs)) frame)
      as [_ [_ [Hr' Ht']]].
    simpl in Hr', Ht'. split; congruence.
Qed.

Lemma run_inv (pages : list bytes) :
  forall self,
    awaiting_inv self -> config_inv self ->
    awaiting_inv (fst (run self pages)) /\ config_inv (fst (run self pages)).
Proof.
  induction pages as [|data rest IH]; intros self Ia Ic; [split; assumption|].
  rewrite run_cons. apply IH.
  - apply execute_awaiting_inv; assumption.
  - apply execute_config_inv; assumption.
Qed.

Lemma init_inv : awaiting_inv init /\ config_inv init.
Proof. split; [intros _|]; split; reflexivity. Qed.

(** C5, as amended.  At every point of a run from the initial state at
    which the headers are not yet captured the window is empty: no page
    of a call that ended [HeadersIncomplete] is ever appended.  On the
    call during which the headers are first recognized, the page of that
    very call is appended to the window; it stays there (as the only
    page) unless its granule position is at least 480000, in which case
    the same call evicts it. *)
Theorem window_during_header_capture (pages : list bytes) (data : bytes) :
  let self := fst (run init pages) in
  let self' := fst (execute self data) in
  truthy (header_frames self) = false ->
  audio_data_buffer self = [] /\
  (truthy (header_frames self') = false -> audio_data_buffer self' = []) /\
  (truthy (header_frames self') = true ->
   exists frame,
     OggSFrame_new data = Some frame /\
     audio_data_buffer self'
     = if granule_position frame <? 480000 then [frame] else []).
Proof.
  intros self self' Hf.
  destruct (run_inv pages init (proj1 init_inv) (proj2 init_inv)) as [Ia Ic].
  fold self in Ia, Ic.
  destruct (Ia Hf) as [Hw Hc].
  split; [assumption|]. split.
  - intro Hf'. exact (proj1 (execute_awaiting_inv self data Ia Hf')).
  - subst self'. execute_paths self data; simpl; intro Ht; try congruence.
    exists frame. split; [assumption|].
    apply first_update; [exact Hw | exact Hc | exact Ic].
Qed.

(** C1 (the code departs from it).  When the headers are found on a call
    made with an empty window, the page of that call is the first one to
    reach the window.  The duration attributed to it is its granule
    position divided by the sample rate (the previous granule position is
    taken to be 0, not [None]); with a positive granule position that
    duration is positive and the call emits a blob. *)
Theorem first_page_positive_granule_emits
    (self : CreateNsAudioPackage) (data : bytes) (frame id c : OggSFrame)
    (cs : list OggSFrame) :
  truthy (header_frames self) = false ->
  audio_data_buffer self = [] ->
  data <> [] ->
  OggSFrame_new data = Some frame ->
  get_header_frames (header_buffer self ++ raw_data frame) = (Some id, c :: cs) ->
  0 < granule_position frame ->
  let delta := frame_duration_of (captured self frame id (c :: cs)) frame in
  (delta == granule_position frame # sample_rate self)%Q /\
  (0 < delta)%Q /\
  exists blob, snd (execute self data) = Emitted blob.
Proof.
  intros Hf Hw Hd Hp Hg Hpos delta.
  assert (E : delta = (granule_position frame - 0 # sample_rate self)%Q).
  { unfold delta, frame_duration_of, previous_granule_position. simpl.
    rewrite Hw. reflexivity. }
  assert (Hdpos : (0 < delta)%Q).
  { rewrite E. unfold Qlt. simpl. lia. }
  split; [rewrite E, Z.sub_0_r; reflexivity|]. split; [assumption|].
  rewrite (execute_capture self data frame id c cs Hf Hd Hp Hg).
  update_cases (captured self frame id (c :: cs)) frame.
  - fold delta in Hstill. lra.
  - eexists. reflexivity.
  - eexists. reflexivity.
Qed.

(** In the streaming state, a run over pages that parse is the sequence
    of their window updates. *)
Lemma run_feed (pages : list bytes) :
  forall (self : CreateNsAudioPackage) (frames : list OggSFrame),
    truthy (header_frames self) = true ->
    Forall2 (fun data frame => data <> [] /\ OggSFrame_new data = Some frame)
      pages frames ->
    fst (run self pages) = feed self frames.
Proof.
  induction pages as [|data rest IH]; intros self frames Hh HF;
    inversion HF as [|d f ds fs [Hd Hp] HF']; subst; [reflexivity|].
  rewrite run_cons, (execute_streaming self data f Hh Hd Hp). simpl.
  apply IH; [|assumption].
  rewrite (proj1 (proj2 (update_window_frame_rule self f))). exact Hh.
Qed.

End Properties.

(** ** The theorems at concrete inputs *)

Import OggModel Runs.

(** The example parser indeed yields the example frames. *)
Lemma parse_examples :
  OggSFrame_new id_page = Some id0 /\
  OggSFrame_new (tags_page 0) = Some (tags 0) /\
  OggSFrame_new (tags_page 48000) = Some (tags 48000) /\
  OggSFrame_new (audio_page 12000) = Some (audio 12000) /\
  OggSFrame_new (audio_page 24000) = Some (audio 24000) /\
  OggSFrame_new (audio_page 984000) = Some (audio 984000) /\
  OggSFrame_new junk = None /\
  OggSFrame_new [] = None.
Proof. repeat split; vm_compute; reflexivity. Qed.

Lemma example_states :
  awaiting_state = accumulated init id0 /\
  audio_data_buffer captured_state = [tags 0] /\
  header_frames captured_state = Some [id0; tags 0] /\
  header_buffer captured_state = id_page ++ tags_page 0 /\
  audio_data_buffer streaming_state = [tags 0; audio 24000] /\
  (current_audio_buffer_seconds streaming_state == 1 # 2)%Q /\
  audio_data_buffer overfull_state = [audio 24000; audio 984000] /\
  (current_audio_buffer_seconds overfull_state == 20)%Q.
Proof. repeat split; vm_compute; reflexivity. Qed.

(** C7: the empty payload is rejected by the example parser, yet a call
    with it ends without raising. *)
Lemma empty_payload_not_reported :
  OggSFrame_new [] = None /\
  execute captured_state [] = (captured_state, NoUpdate).
Proof. split; reflexivity. Qed.

(** C7, as amended, on four bytes that are not a page. *)
Lemma execute_malformed_page_witness :
  junk <> [] /\
  OggSFrame_new junk = None /\
  execute captured_state junk = (captured_state, Raise ParseFailure).
Proof.
  assert (H1 : junk <> []) by discriminate.
  assert (H2 : OggSFrame_new junk = None) by (vm_compute; reflexivity).
  exact (conj H1 (conj H2 (execute_malformed_page captured_state junk H1 H2))).
Defined.

(** C8 on a second audio page with the granule position of the tail. *)
Lemma same_granule_no_update_witness :
  truthy (header_frames streaming_state) = true /\
  last_frame (audio_data_buffer streaming_state) = Some (audio 24000) /\
  OggSFrame_new (audio_page 24000) = Some (audio 24000) /\
  granule_position (audio 24000) = granule_position (audio 24000) /\
  snd (execute streaming_state (audio_page 24000)) = NoUpdate /\
  (current_audio_buffer_seconds (fst (execute streaming_state (audio_page 24000)))
   == current_audio_buffer_seconds streaming_state)%Q.
Proof.
  assert (H1 : truthy (header_frames streaming_state) = true)
    by (vm_compute; reflexivity).
  assert (H2 : last_frame (audio_data_buffer streaming_state) = Some (audio 24000))
    by (vm_compute; reflexivity).
  assert (H3 : OggSFrame_new (audio_page 24000) = Some (audio 24000))
    by (vm_compute; reflexivity).
  exact (conj H1 (conj H2 (conj H3 (conj eq_refl
           (same_granule_no_update streaming_state (audio_page 24000)
              (audio 24000) (audio 24000) H1 H2 H3 eq_refl))))).
Defined.



(** C2: a stream in which an audio page precedes the header pages.  The
    blob emitted on the fourth call starts with that page, which is not
    one of the frames in [header_frames]: the blob is not the bytes of
    [header_frames] followed by the bytes of the window. *)
Lemma blob_starts_with_accumulator :
  let self := fst (run init [audio_page 0; id_page; tags_page 0]) in
  let self' := fst (execute self (audio_page 24000)) in
  let blob :=
    audio_page 0 ++ id_page ++ tags_page 0 ++ tags_page 0 ++ audio_page 24000 in
  snd (execute self (audio_page 24000)) = Emitted blob /\
  header_frames self' = Some [id0; tags 0] /\
  audio_data_buffer self' = [tags 0; audio 24000] /\
  blob <> header_set_bytes self' ++ join_raw (audio_data_buffer self').
Proof.
  repeat split; try (vm_compute; reflexivity).
  vm_compute. discriminate.
Qed.

(** C2, as amended, on the third call of the stream identification page,
    comment page, audio page: the blob is the two header pages followed by
    the window (comment page, audio page), and the example parser splits
    it into these four pages. *)
Lemma emitted_blob_witness :
  execute (fst (run init [id_page; tags_page 0])) (audio_page 24000)
  = (streaming_state,
     Emitted (id_page ++ tags_page 0 ++ tags_page 0 ++ audio_page 24000)) /\
  id_page ++ tags_page 0 ++ tags_page 0 ++ audio_page 24000
  = header_buffer streaming_state ++ join_raw (audio_data_buffer streaming_state) /\
  header_buffer streaming_state = join_raw [id0; tags 0] /\
  split_ogg_data_into_frames
    (id_page ++ tags_page 0 ++ tags_page 0 ++ audio_page 24000)
  = [id0; tags 0; tags 0; audio 24000].
Proof.
  assert (H : execute (fst (run init [id_page; tags_page 0])) (audio_page 24000)
              = (streaming_state,
                 Emitted (id_page ++ tags_page 0 ++ tags_page 0 ++ audio_page 24000)))
    by (vm_compute; reflexivity).
  split; [exact H|].
  destruct (emitted_blob init streaming_state [id_page; tags_page 0]
              (audio_page 24000) _ H) as (Hblob & Hacc & Hsplit).
  split; [exact Hblob|]. split.
  - rewrite Hacc. vm_compute. reflexivity.
  - rewrite (Hsplit eq_refl split_ogg_data_into_frames);
      vm_compute; reflexivity.
Defined.

(** C6: after the call that found the headers the accumulator holds the
    two header pages, and the next emitted blob starts with them; with
    the accumulator emptied the same call would emit another blob. *)
Lemma accumulator_still_used :
  header_frames captured_state = Some [id0; tags 0] /\
  header_buffer captured_state = id_page ++ tags_page 0 /\
  snd (execute captured_state (audio_page 24000))
  = Emitted (id_page ++ tags_page 0 ++ tags_page 0 ++ audio_page 24000) /\
  snd (execute (discard_accumulator captured_state) (audio_page 24000))
  = Emitted (tags_page 0 ++ audio_page 24000).
Proof. repeat split; vm_compute; reflexivity. Qed.

(** C6, as amended, on the call that finds the headers. *)
Lemma header_capture_keeps_accumulator_witness :
  execute awaiting_state (tags_page 0) = (captured_state, NoUpdate) /\
  header_frames captured_state = Some [id0; tags 0] /\
  header_buffer captured_state = header_buffer awaiting_state ++ tags_page 0.
Proof.
  assert (H : execute awaiting_state (tags_page 0) = (captured_state, NoUpdate))
    by (vm_compute; reflexivity).
  split; [exact H|].
  destruct (header_capture_keeps_accumulator awaiting_state captured_state
              (tags_page 0) NoUpdate H) as [Hcap _].
  destruct Hcap as (frame & id & c & cs & Hp & Hg & Hf & Hb);
    [vm_compute; reflexivity | vm_compute; reflexivity |].
  vm_compute in Hp. injection Hp as <-.
  split; [|exact Hb].
  rewrite Hf. vm_compute in Hg. injection Hg as <- <- <-. reflexivity.
Defined.

(** C5: after the call that found the headers, the comment page is both
    one of the header frames and in the window. *)
Lemma comment_page_in_window :
  header_frames captured_state = Some [id0; tags 0] /\
  audio_data_buffer captured_state = [tags 0].
Proof. split; vm_compute; reflexivity. Qed.

(** C5, as amended: empty window after the identification page, the
    comment page in the window after the next call. *)
Lemma window_during_header_capture_witness :
  truthy (header_frames (fst (run init [id_page]))) = false /\
  audio_data_buffer (fst (run init [id_page])) = [] /\
  audio_data_buffer (fst (execute (fst (run init [id_page])) (tags_page 0)))
  = [tags 0].
Proof.
  assert (H : truthy (header_frames (fst (run init [id_page]))) = false)
    by (vm_compute; reflexivity).
  split; [exact H|].
  destruct (window_during_header_capture [id_page] (tags_page 0) H)
    as (Hw & _ & Hc).
  split; [exact Hw|].
  destruct Hc as (frame & Hp & Hbuf); [vm_compute; reflexivity|].
  vm_compute in Hp. injection Hp as <-.
  rewrite Hbuf. reflexivity.
Defined.

(** C1: the comment page carries granule position 48000 (one second).
    It is the first page to reach the window, its duration is one second
    and the call emits. *)
Lemma first_page_positive_granule_emits_witness :
  truthy (header_frames awaiting_state) = false /\
  audio_data_buffer awaiting_state = [] /\
  tags_page 48000 <> [] /\
  OggSFrame_new (tags_page 48000) = Some (tags 48000) /\
  get_header_frames (header_buffer awaiting_state ++ raw_data (tags 48000))
  = (Some id0, [tags 48000]) /\
  0 < granule_position (tags 48000) /\
  (frame_duration_of (captured awaiting_state (tags 48000) id0 [tags 48000])
     (tags 48000) == 1)%Q /\
  exists blob, snd (execute awaiting_state (tags_page 48000)) = Emitted blob.
Proof.
  assert (H1 : truthy (header_frames awaiting_state) = false)
    by (vm_compute; reflexivity).
  assert (H2 : audio_data_buffer awaiting_state = []) by (vm_compute; reflexivity).
  assert (H3 : tags_page 48000 <> []) by discriminate.
  assert (H4 : OggSFrame_new (tags_page 48000) = Some (tags 48000))
    by (vm_compute; reflexivity).
  assert (H5 : get_header_frames
                 (header_buffer awaiting_state ++ raw_data (tags 48000))
               = (Some id0, [tags 48000])) by (vm_compute; reflexivity).
  assert (H6 : 0 < granule_position (tags 48000)) by reflexivity.
  repeat (split; [assumption|]).
  destruct (first_page_positive_granule_emits awaiting_state (tags_page 48000)
              (tags 48000) id0 (tags 48000) [] H1 H2 H3 H4 H5 H6)
    as (Hd & _ & Hb).
  split; [|exact Hb].
  rewrite Hd. vm_compute. reflexivity.
Defined.


(** * Further properties of the code *)

(** ** [execute]: exceptions, outcomes and what stays fixed *)

Section MoreProperties.
Context {parser : PageParser}.

Ltac paths self data :=
  let frame := fresh "frame" in
  let id := fresh "id" in
  let c := fresh "c" in
  let cs := fresh "cs" in
  let Hd := fresh "Hdata" in
  let Hp := fresh "Hparse" in
  let Hh := fresh "Hheaders" in
  let Hg := fresh "Hfound" in
  destruct (execute_pathP self data)
    as [ Hd | Hd Hp | frame Hd Hp Hh | frame Hd Hp Hh Hg
       | frame id c cs Hd Hp Hh Hg ].

(** X2.  The only exception that leaves [execute] is the parser's: if a
    call raises, the payload was non-empty, the parser rejected it, and
    the state was not touched.  In particular [pop(0)] never raises
    [IndexError]. *)
Theorem execute_only_raises_parse_failure
    (self self' : CreateNsAudioPackage) (data : bytes) (e : Exception) :
  execute self data = (self', Raise e) ->
  e = ParseFailure /\ data <> [] /\ OggSFrame_new data = None /\ self' = self.
Proof.
  paths self data; intro E.
  - discriminate.
  - injection E as <- <-. auto.
  - exfalso. apply (update_window_no_exception self frame e).
    rewrite E. reflexivity.
  - discriminate.
  - exfalso.
    apply (update_window_no_exception (captured self frame id (c :: cs)) frame e).
    rewrite E. reflexivity.
Qed.

Lemma update_window_emits_iff (self : CreateNsAudioPackage) (frame : OggSFrame) :
  (exists blob, snd (update_window self frame) = Emitted blob) <->
  previous_granule_position (audio_data_buffer self) < granule_position frame.
Proof.
  rewrite <- (duration_pos (granule_position frame)
                (previous_granule_position (audio_data_buffer self))
                (sample_rate self)).
  fold (frame_duration_of self frame).
  update_cases self frame; simpl; split.
  - intros [blob H]. discriminate.
  - intro H. lra.
  - intros _. assumption.
  - intros _. eexists. reflexivity.
  - intros _. assumption.
  - intros _. eexists. reflexivity.
Qed.

(** X3.  A blob is produced exactly when the page advances the granule
    position.  In the streaming state a page that parses makes [execute]
    emit if and only if its granule position is above that of the
    window's tail (above 0 for an empty window), and otherwise the
    outcome is [NoUpdate]; in any state, a call that emits was given a
    page that parses and advances the granule position. *)
Theorem emission_iff_advance
    (self : CreateNsAudioPackage) (data : bytes) :
  (forall frame,
      truthy (header_frames self) = true ->
      data <> [] ->
      OggSFrame_new data = Some frame ->
      ((exists blob, snd (execute self data) = Emitted blob) <->
       previous_granule_position (audio_data_buffer self) < granule_position frame) /\
      (snd (execute self data) = NoUpdate <->
       granule_position frame <= previous_granule_position (audio_data_buffer self))) /\
  (forall blob,
      snd (execute self data) = Emitted blob ->
      exists frame,
        OggSFrame_new data = Some frame /\
        previous_granule_position (audio_data_buffer self) < granule_position frame).
Proof.
  split.
  - intros frame Hh Hd Hp.
    rewrite (execute_streaming self data frame Hh Hd Hp).
    split; [apply update_window_emits_iff|].
    pose proof (update_window_emits_iff self frame) as Hiff.
    split.
    + intro Hno.
      destruct (Z_lt_le_dec (previous_granule_position (audio_data_buffer self))
                  (granule_position frame)) as [Hlt|Hle]; [|exact Hle].
      destruct (proj2 Hiff Hlt) as [blob Hb]. congruence.
    + intro Hle.
      rewrite update_window_still; [reflexivity|].
      apply duration_nonpos. exact Hle.
  - intros blob. paths self data; simpl; intro E; try discriminate.
    + exists frame. split; [assumption|].
      apply update_window_emits_iff. eauto.
    + exists frame. split; [assumption|].
      apply (update_window_emits_iff (captured self frame id (c :: cs)) frame).
      eauto.
Qed.

(** X4.  A call that ends [HeadersIncomplete] was made without captured
    headers on a page that parses; it extends the accumulator by that
    page's raw bytes and changes nothing else: window, cumulative
    duration, header frames and configuration are those before the
    call. *)
Theorem headers_incomplete_only_accumulates
    (self self' : CreateNsAudioPackage) (data : bytes) :
  execute self data = (self', HeadersIncomplete) ->
  truthy (header_frames self) = false /\
  exists frame,
    OggSFrame_new data = Some frame /\
    header_buffer self' = header_buffer self ++ raw_data frame /\
    audio_data_buffer self' = audio_data_buffer self /\
    current_audio_buffer_seconds self' = current_audio_buffer_seconds self /\
    header_frames self' = header_frames self /\
    sample_rate self' = sample_rate self /\
    last_n_seconds self' = last_n_seconds self.
Proof.
  paths self data; intro E; try discriminate.
  - exfalso. revert E. update_cases self frame; discriminate.
  - injection E as <-. split; [assumption|].
    exists frame. repeat split; try reflexivity. assumption.
  - exfalso. revert E.
    update_cases (captured self frame id (c :: cs)) frame; discriminate.
Qed.

Lemma execute_streaming_frame_rule (self : CreateNsAudioPackage) (data : bytes) :
  truthy (header_frames self) = true ->
  header_frames (fst (execute self data)) = header_frames self /\
  header_buffer (fst (execute self data)) = header_buffer self /\
  snd (execute self data) <> HeadersIncomplete.
Proof.
  intro Hh. paths self data; try congruence.
  - repeat split; try reflexivity. discriminate.
  - repeat split; try reflexivity. discriminate.
  - destruct (update_window_frame_rule self frame) as (Hb & Hf & _).
    repeat split; try assumption.
    update_cases self frame; discriminate.
Qed.

Lemma run_cons_outcomes (self : CreateNsAudioPackage) (data : bytes) (rest : list bytes) :
  snd (run self (data :: rest))
  = snd (execute self data) :: snd (run (fst (execute self data)) rest).
Proof.
  simpl. destruct (execute self data) as [self1 out]. simpl.
  destruct (run self1 rest) as [self2 outs]. reflexivity.
Qed.

(** X5.  The streaming state is never left: once [header_frames] is set,
    every later call, whatever its payload, leaves [header_frames] and
    the accumulator as they are, and no later call ends
    [HeadersIncomplete]. *)
Theorem streaming_is_permanent (pages : list bytes) :
  forall self : CreateNsAudioPackage,
    truthy (header_frames self) = true ->
    header_frames (fst (run self pages)) = header_frames self /\
    header_buffer (fst (run self pages)) = header_buffer self /\
    ~ In HeadersIncomplete (snd (run self pages)).
Proof.
  induction pages as [|data rest IH]; intros self Hh.
  - simpl. auto.
  - destruct (execute_streaming_frame_rule self data Hh) as (Hf & Hb & Hno).
    assert (Hh' : truthy (header_frames (fst (execute self data))) = true)
      by (rewrite Hf; exact Hh).
    destruct (IH _ Hh') as (Hf' & Hb' & Hno').
    rewrite run_cons, run_cons_outcomes.
    repeat split; try congruence.
    intros [H|H]; [congruence|contradiction].
Qed.

Lemma execute_configuration (self : CreateNsAudioPackage) (data : bytes) :
  sample_rate (fst (execute self data)) = sample_rate self /\
  last_n_seconds (fst (execute self data)) = last_n_seconds self.
Proof.
  paths self data; try (split; reflexivity).
  - destruct (update_window_frame_rule self frame) as (_ & _ & Hr & Ht). auto.
  - destruct (update_window_frame_rule (captured self frame id (c :: cs)) frame)
      as (_ & _ & Hr & Ht). auto.
Qed.

(** X6.  No call changes the configuration: after any run, from any
    state, the sample rate and the target duration are the ones the
    state started with; from the initial state they are 48000 and 10. *)
Theorem configuration_is_fixed (pages : list bytes) :
  (forall self : CreateNsAudioPackage,
      sample_rate (fst (run self pages)) = sample_rate self /\
      last_n_seconds (fst (run self pages)) = last_n_seconds self) /\
  sample_rate (fst (run init pages)) = 48000%positive /\
  last_n_seconds (fst (run init pages)) = 10.
Proof.
  assert (H : forall self : CreateNsAudioPackage,
             sample_rate (fst (run self pages)) = sample_rate self /\
             last_n_seconds (fst (run self pages)) = last_n_seconds self).
  { induction pages as [|data rest IH]; intro self; [split; reflexivity|].
    rewrite run_cons.
    destruct (IH (fst (execute self data))) as [Hr Ht].
    destruct (execute_configuration self data) as [Hr' Ht'].
    split; congruence. }
  split; [exact H|]. exact (H init).
Qed.

End MoreProperties.

(** ** The window along a sequence of accepted pages *)

Lemma update_window_buffer (self : CreateNsAudioPackage) (frame : OggSFrame) :
  audio_data_buffer (fst (update_window self frame))
  = audio_data_buffer self ++ [frame] \/
  exists pop_frame,
    audio_data_buffer self ++ [frame]
    = pop_frame :: audio_data_buffer (fst (update_window self frame)).
Proof.
  update_cases self frame; simpl; auto.
  right. exists pop_frame. exact Hbuf.
Qed.

Lemma update_window_nonempty (self : CreateNsAudioPackage) (frame : OggSFrame) :
  audio_data_buffer self <> [] ->
  audio_data_buffer (fst (update_window self frame)) <> [].
Proof.
  intro Hne.
  destruct (update_window_buffer self frame) as [E | [pop_frame E]].
  - rewrite E. destruct (audio_data_buffer self); discriminate.
  - destruct (audio_data_buffer self) as [|h [|h' t]]; [congruence| |];
      simpl in E; injection E as _ <-; discriminate.
Qed.

(** X7.  The window always holds the most recent pages, in arrival
    order: after any sequence of accepted pages it is what remains of the
    earlier window followed by these pages once some [k] oldest pages
    are dropped, with [k] at most the number of pages accepted (one
    eviction per call at most).  So the window never gets shorter, and a
    non-empty window never becomes empty. *)
Theorem window_is_recent_suffix (frames : list OggSFrame) :
  forall self : CreateNsAudioPackage,
    (exists k : nat,
        (k <= length frames)%nat /\
        audio_data_buffer (feed self frames)
        = skipn k (audio_data_buffer self ++ frames)) /\
    (length (audio_data_buffer self)
     <= length (audio_data_buffer (feed self frames)))%nat /\
    (audio_data_buffer self <> [] ->
     audio_data_buffer (feed self frames) <> []).
Proof.
  induction frames as [|frame rest IH]; intro self.
  - simpl. split; [|split; [lia|auto]].
    exists 0%nat. simpl. rewrite app_nil_r. auto.
  - simpl feed.
    destruct (IH (fst (update_window self frame))) as ((k & Hk & Hw) & Hlen & Hne).
    assert (Hstep : (length (audio_data_buffer self)
                     <= length (audio_data_buffer (fst (update_window self frame))))%nat).
    { destruct (update_window_buffer self frame) as [E | [pop_frame E]].
      - rewrite E, length_app. simpl. lia.
      - apply (f_equal (@length _)) in E. rewrite length_app in E.
        simpl in E. lia. }
    split; [|split].
    + destruct (update_window_buffer self frame) as [E | [pop_frame E]].
      * exists k. split; [simpl; lia|].
        rewrite Hw, E, <- app_assoc. reflexivity.
      * exists (S k). split; [simpl; lia|].
        rewrite Hw.
        replace (audio_data_buffer self ++ frame :: rest)
          with ((audio_data_buffer self ++ [frame]) ++ rest)
          by (rewrite <- app_assoc; reflexivity).
        rewrite E. reflexivity.
    + lia.
    + intro H. apply Hne. apply update_window_nonempty. exact H.
Qed.

(** Durations over one sample rate add up. *)
Lemma duration_chain (a b c : Z) (rate : positive) :
  (calculate_frame_duration c (Some a) rate
   == calculate_frame_duration b (Some a) rate
      + calculate_frame_duration c (Some b) rate)%Q.
Proof.
  unfold calculate_frame_duration, Qeq, Qplus. simpl. nia.
Qed.

Lemma previous_granule_position_snoc (buf : list OggSFrame) (frame : OggSFrame) :
  previous_granule_position (buf ++ [frame]) = granule_position frame.
Proof. unfold previous_granule_position. rewrite last_frame_snoc. reflexivity. Qed.

(** The first page into an empty window, when it is not evicted at once. *)
Lemma first_page_stays (self : CreateNsAudioPackage) (frame : OggSFrame) :
  audio_data_buffer self = [] ->
  (current_audio_buffer_seconds self
   + calculate_frame_duration (granule_position frame) (Some 0%Z) (sample_rate self)
   < inject_Z (last_n_seconds self))%Q ->
  audio_data_buffer (fst (update_window self frame)) = [frame] /\
  (current_audio_buffer_seconds (fst (update_window self frame))
   == current_audio_buffer_seconds self
      + calculate_frame_duration (granule_position frame) (Some 0%Z)
          (sample_rate self))%Q.
Proof.
  intros Hw Hlt.
  assert (Hd : frame_duration_of self frame
               = calculate_frame_duration (granule_position frame) (Some 0%Z)
                   (sample_rate self)).
  { unfold frame_duration_of. rewrite Hw. reflexivity. }
  rewrite <- Hd in *.
  update_cases self frame; cbn [fst audio_data_buffer current_audio_buffer_seconds
                                  set_window].
  - rewrite Hw. split; reflexivity.
  - rewrite Hw. split; reflexivity.
  - lra.
Qed.



(** ** The page that completes the header capture *)

Section CapturePage.
Context {parser : PageParser}.

(** X12.  The page that completes the header capture is emitted twice.
    When the headers are found on a call made with an empty window and a
    cumulative duration of zero, and the page of that call is not evicted
    at once, that page sits both at the end of the accumulator and at the
    head of the window: the blob of the next call that advances the
    granule position (and stays below the target) is the earlier
    accumulator, then the capture page twice, then the new page. *)
Theorem capture_page_is_emitted_twice
    (self : CreateNsAudioPackage) (data1 data2 : bytes)
    (frame1 frame2 id c : OggSFrame) (cs : list OggSFrame) :
  truthy (header_frames self) = false ->
  audio_data_buffer self = [] ->
  (current_audio_buffer_seconds self == 0)%Q ->
  data1 <> [] ->
  OggSFrame_new data1 = Some frame1 ->
  get_header_frames (header_buffer self ++ raw_data frame1) = (Some id, c :: cs) ->
  (calculate_frame_duration (granule_position frame1) (Some 0%Z) (sample_rate self)
   < inject_Z (last_n_seconds self))%Q ->
  data2 <> [] ->
  OggSFrame_new data2 = Some frame2 ->
  granule_position frame1 < granule_position frame2 ->
  (calculate_frame_duration (granule_position frame2) (Some 0%Z) (sample_rate self)
   < inject_Z (last_n_seconds self))%Q ->
  audio_data_buffer (fst (execute self data1)) = [frame1] /\
  execute (fst (execute self data1)) data2
  = (set_window (fst (execute self data1)) [frame1; frame2]
       (current_audio_buffer_seconds (fst (execute self data1))
        + calculate_frame_duration (granule_position frame2)
            (Some (granule_position frame1)) (sample_rate self))%Q,
     Emitted (header_buffer self
                ++ raw_data frame1 ++ raw_data frame1 ++ raw_data frame2)).
Proof.
  intros Hf Hw Hc Hd1 Hp1 Hg Hlt1 Hd2 Hp2 Hadv Hlt2.
  rewrite (execute_capture self data1 frame1 id c cs Hf Hd1 Hp1 Hg).
  set (self0 := captured self frame1 id (c :: cs)).
  destruct (first_page_stays self0 frame1 Hw) as [Hw1 Hc1].
  { change (current_audio_buffer_seconds self0)
      with (current_audio_buffer_seconds self).
    change (sample_rate self0) with (sample_rate self).
    change (last_n_seconds self0) with (last_n_seconds self). lra. }
  change (current_audio_buffer_seconds self0)
    with (current_audio_buffer_seconds self) in Hc1.
  change (sample_rate self0) with (sample_rate self) in Hc1.
  set (self1 := fst (update_window self0 frame1)) in *.
  destruct (update_window_frame_rule self0 frame1) as (Hb & Hh & Hr & Ht).
  fold self1 in Hb, Hh, Hr, Ht.
  change (header_buffer self0) with (header_buffer self ++ raw_data frame1) in Hb.
  change (sample_rate self0) with (sample_rate self) in Hr.
  change (last_n_seconds self0) with (last_n_seconds self) in Ht.
  split; [exact Hw1|].
  assert (Hh1 : truthy (header_frames self1) = true) by (rewrite Hh; reflexivity).
  rewrite (execute_streaming self1 data2 frame2 Hh1 Hd2 Hp2).
  assert (Hdur : frame_duration_of self1 frame2
                 = calculate_frame_duration (granule_position frame2)
                     (Some (granule_position frame1)) (sample_rate self)).
  { unfold frame_duration_of. rewrite Hw1, Hr.
    change [frame1] with ([] ++ [frame1]).
    rewrite previous_granule_position_snoc. reflexivity. }
  pose proof (duration_chain 0 (granule_position frame1) (granule_position frame2)
                (sample_rate self)) as Hchain.
  rewrite update_window_grow.
  - rewrite Hdur, Hw1, Hb. f_equal. f_equal.
    unfold join_raw. simpl. rewrite app_nil_r, <- app_assoc. reflexivity.
  - rewrite Hdur. apply duration_pos. exact Hadv.
  - rewrite Hdur, Ht. lra.
Qed.

End CapturePage.

(** ** The newest page *)

(** X15.  After an update the page just accepted is the tail of the
    window, so the next page's duration is measured from it; the only
    exception is a page evicted by its own call, which happens only when
    the window was empty, and leaves it empty. *)
Theorem newest_page_is_tail (self : CreateNsAudioPackage) (frame : OggSFrame) :
  last_frame (audio_data_buffer (fst (update_window self frame))) = Some frame \/
  (audio_data_buffer self = [] /\
   audio_data_buffer (fst (update_window self frame)) = []).
Proof.
  destruct (update_window_buffer self frame) as [E | [pop_frame E]].
  - left. rewrite E. apply last_frame_snoc.
  - destruct (audio_data_buffer self) as [|h t] eqn:Ebuf.
    + right. simpl in E. injection E as _ <-. split; reflexivity.
    + left. simpl in E. injection E as _ <-. apply last_frame_snoc.
Qed.

(** ** The further properties at concrete inputs *)

Import MoreRuns.

(** X2 on four bytes that are not a page. *)
Lemma execute_only_raises_parse_failure_witness :
  execute captured_state junk = (captured_state, Raise ParseFailure) /\
  junk <> [] /\ OggSFrame_new junk = None.
Proof.
  assert (H : execute captured_state junk = (captured_state, Raise ParseFailure))
    by (vm_compute; reflexivity).
  split; [exact H|].
  destruct (execute_only_raises_parse_failure captured_state captured_state junk
              ParseFailure H) as (_ & Hd & Hp & _).
  exact (conj Hd Hp).
Defined.

(** X3 on a page that advances the granule position by twenty seconds. *)
Lemma emission_iff_advance_witness :
  truthy (header_frames streaming_state) = true /\
  audio_page 984000 <> [] /\
  OggSFrame_new (audio_page 984000) = Some (audio 984000) /\
  previous_granule_position (audio_data_buffer streaming_state)
  < granule_position (audio 984000) /\
  exists blob, snd (execute streaming_state (audio_page 984000)) = Emitted blob.
Proof.
  assert (H1 : truthy (header_frames streaming_state) = true)
    by (vm_compute; reflexivity).
  assert (H2 : audio_page 984000 <> []) by discriminate.
  assert (H3 : OggSFrame_new (audio_page 984000) = Some (audio 984000))
    by (vm_compute; reflexivity).
  assert (H4 : previous_granule_position (audio_data_buffer streaming_state)
               < granule_position (audio 984000)) by (vm_compute; reflexivity).
  repeat (split; [assumption|]).
  destruct (emission_iff_advance streaming_state (audio_page 984000)) as [H _].
  destruct (H (audio 984000) H1 H2 H3) as [[_ Hemit] _].
  exact (Hemit H4).
Defined.

(** X4 on the identification page, the first page of a stream. *)
Lemma headers_incomplete_only_accumulates_witness :
  execute init id_page = (awaiting_state, HeadersIncomplete) /\
  header_buffer awaiting_state = [] ++ id_page /\
  audio_data_buffer awaiting_state = [].
Proof.
  assert (H : execute init id_page = (awaiting_state, HeadersIncomplete))
    by (vm_compute; reflexivity).
  split; [exact H|].
  destruct (headers_incomplete_only_accumulates init awaiting_state id_page H)
    as (_ & frame & Hp & Hb & Hw & _).
  vm_compute in Hp. injection Hp as <-.
  exact (conj Hb Hw).
Defined.

(** X5 on an audio page, four bytes that are not a page and an empty
    payload. *)
Lemma streaming_is_permanent_witness :
  truthy (header_frames captured_state) = true /\
  header_frames (fst (run captured_state [audio_page 24000; junk; []]))
  = Some [id0; tags 0] /\
  header_buffer (fst (run captured_state [audio_page 24000; junk; []]))
  = id_page ++ tags_page 0.
Proof.
  assert (H : truthy (header_frames captured_state) = true)
    by (vm_compute; reflexivity).
  split; [exact H|].
  destruct (streaming_is_permanent [audio_page 24000; junk; []] captured_state H)
    as (Hf & Hb & _).
  split.
  - rewrite Hf. vm_compute. reflexivity.
  - rewrite Hb. vm_compute. reflexivity.
Defined.

(** X7 on two pages, the first of which makes the window evict its head. *)
Lemma window_is_recent_suffix_witness :
  audio_data_buffer streaming_state <> [] /\
  audio_data_buffer (feed streaming_state [audio 984000; audio 1008000]) <> [].
Proof.
  assert (H : audio_data_buffer streaming_state <> [])
    by (vm_compute; discriminate).
  split; [exact H|].
  destruct (window_is_recent_suffix [audio 984000; audio 1008000] streaming_state)
    as (_ & _ & Hne).
  exact (Hne H).
Defined.


(** X12 on the stream identification page, comment page, audio page: the
    comment page is in the blob twice. *)
Lemma capture_page_is_emitted_twice_witness :
  truthy (header_frames awaiting_state) = false /\
  OggSFrame_new (tags_page 0) = Some (tags 0) /\
  OggSFrame_new (audio_page 24000) = Some (audio 24000) /\
  snd (execute (fst (execute awaiting_state (tags_page 0))) (audio_page 24000))
  = Emitted (id_page ++ tags_page 0 ++ tags_page 0 ++ audio_page 24000).
Proof.
  assert (H1 : truthy (header_frames awaiting_state) = false)
    by (vm_compute; reflexivity).
  assert (H2 : OggSFrame_new (tags_page 0) = Some (tags 0))
    by (vm_compute; reflexivity).
  assert (H3 : OggSFrame_new (audio_page 24000) = Some (audio 24000))
    by (vm_compute; reflexivity).
  repeat (split; [assumption|]).
  assert (Hw : audio_data_buffer awaiting_state = []) by (vm_compute; reflexivity).
  assert (Hc : (current_audio_buffer_seconds awaiting_state == 0)%Q)
    by (vm_compute; reflexivity).
  assert (Hd1 : tags_page 0 <> []) by discriminate.
  assert (Hg : get_header_frames (header_buffer awaiting_state ++ raw_data (tags 0))
               = (Some id0, [tags 0])) by (vm_compute; reflexivity).
  assert (Hl1 : (calculate_frame_duration (granule_position (tags 0)) (Some 0%Z)
                   (sample_rate awaiting_state)
                 < inject_Z (last_n_seconds awaiting_state))%Q)
    by (vm_compute; reflexivity).
  assert (Hd2 : audio_page 24000 <> []) by discriminate.
  assert (Hadv : granule_position (tags 0) < granule_position (audio 24000))
    by reflexivity.
  assert (Hl2 : (calculate_frame_duration (granule_position (audio 24000)) (Some 0%Z)
                   (sample_rate awaiting_state)
                 < inject_Z (last_n_seconds awaiting_state))%Q)
    by (vm_compute; reflexivity).
  destruct (capture_page_is_emitted_twice awaiting_state (tags_page 0)
              (audio_page 24000) (tags 0) (audio 24000) id0 (tags 0) []
              H1 Hw Hc Hd1 H2 Hg Hl1 Hd2 H3 Hadv Hl2)
    as [_ E].
  rewrite E. cbn [snd]. f_equal.
Defined.

(** * The code in binary64 arithmetic *)

(** ** Binary64: the sign of a duration *)

Lemma iter_pos_inv {A : Type} (P : A -> Prop) (f : A -> A) :
  (forall x, P x -> P (f x)) ->
  forall n x, P x -> P (iter_pos f n x).
Proof.
  intros Hf n; induction n as [n IH | n IH |]; intros x Hx; simpl.
  - apply IH, IH, Hf, Hx.
  - apply IH, IH, Hx.
  - apply Hf, Hx.
Qed.

Lemma shr_1_nonneg (mrs : shr_record) :
  0 <= shr_m mrs -> 0 <= shr_m (shr_1 mrs).
Proof.
  destruct mrs as [m r s]; simpl.
  destruct m as [| p | p]; [| destruct p | destruct p]; simpl; lia.
Qed.

Lemma shr_fexp_nonneg (m e : Z) (l : location) :
  0 <= m -> 0 <= shr_m (fst (shr_fexp Binary64.prec Binary64.emax m e l)).
Proof.
  intros Hm. unfold shr_fexp, shr.
  assert (H0 : 0 <= shr_m (shr_record_of_loc m l))
    by (destruct l as [| []]; simpl; exact Hm).
  destruct (fexp Binary64.prec Binary64.emax (Zdigits2 m + e) - e) as [| n | n];
    simpl; try exact H0.
  apply (iter_pos_inv (fun mrs => 0 <= shr_m mrs)); [apply shr_1_nonneg | exact H0].
Qed.

Lemma round_nearest_even_nonneg (m : Z) (l : location) :
  0 <= m -> 0 <= round_nearest_even m l.
Proof.
  intros Hm. destruct l as [| []]; simpl; try lia.
  destruct (Z.even m); lia.
Qed.

(** Rounding a non-negative mantissa never gives a NaN, and the result
    carries the sign it was given. *)
Lemma binary_round_aux_sign (sx : bool) (mx ex : Z) (lx : location) :
  0 <= mx ->
  match binary_round_aux Binary64.prec Binary64.emax sx mx ex lx with
  | S754_zero s | S754_finite s _ _ | S754_infinity s => s = sx
  | S754_nan => False
  end.
Proof.
  intros Hm. unfold binary_round_aux.
  pose proof (shr_fexp_nonneg mx ex lx Hm) as H1.
  destruct (shr_fexp Binary64.prec Binary64.emax mx ex lx) as [mrs1 e1].
  cbn [fst] in H1.
  pose proof (shr_fexp_nonneg _ e1 loc_Exact
                (round_nearest_even_nonneg _ (loc_of_shr_record mrs1) H1)) as H2.
  destruct (shr_fexp Binary64.prec Binary64.emax
              (round_nearest_even (shr_m mrs1) (loc_of_shr_record mrs1)) e1 loc_Exact)
    as [mrs2 e2].
  cbn [fst] in H2.
  destruct (shr_m mrs2) as [| p | p]; [reflexivity | | lia].
  destruct (e2 <=? Binary64.emax - Binary64.prec); reflexivity.
Qed.

Lemma div_core_nonneg (m1 e1 e2 : Z) (m2 : positive) :
  0 <= m1 ->
  0 <= fst (fst (SFdiv_core_binary Binary64.prec Binary64.emax m1 e1 (Zpos m2) e2)).
Proof.
  intros Hm. unfold SFdiv_core_binary.
  set (s := e1 - e2 - _).
  set (m' := match s with Z0 => m1 | Zpos _ => Z.shiftl m1 s | Zneg _ => 0 end).
  assert (Hm' : 0 <= m').
  { subst m'. destruct s; [exact Hm | apply Z.shiftl_nonneg; exact Hm | lia]. }
  pose proof (Z_div_mod m' (Zpos m2) eq_refl) as Hd.
  destruct (Z.div_eucl m' (Zpos m2)) as [q r]. cbn [fst].
  destruct Hd as [Hq Hr]. nia.
Qed.

(** The quotient of line 22 has the sign of the difference of the
    granule positions. *)
Lemma true_divide_sign (a : Z) (b : positive) (d : Binary64.float) :
  Binary64.true_divide a b = Some d ->
  (a < 0 -> Binary64.sign_set d) /\ (0 <= a -> Binary64.sign_clear d).
Proof.
  unfold Binary64.true_divide.
  destruct a as [| m | m]; cbn [Binary64.int_operand SFdiv xorb].
  - intros E. injection E as <-. split; [lia | intros _; exact I].
  - pose proof (div_core_nonneg (Zpos m) 0 0 b ltac:(lia)) as Hq.
    destruct (SFdiv_core_binary Binary64.prec Binary64.emax (Zpos m) 0 (Zpos b) 0)
      as [[mz ez] lz].
    cbn [fst] in Hq.
    pose proof (binary_round_aux_sign false mz ez lz Hq) as Hs.
    destruct (binary_round_aux Binary64.prec Binary64.emax false mz ez lz)
      as [s | s | | s mm e]; intros E; try discriminate; try contradiction;
      injection E as <-; subst s; split; intros; try lia; exact I.
  - pose proof (div_core_nonneg (Zpos m) 0 0 b ltac:(lia)) as Hq.
    destruct (SFdiv_core_binary Binary64.prec Binary64.emax (Zpos m) 0 (Zpos b) 0)
      as [[mz ez] lz].
    cbn [fst] in Hq.
    pose proof (binary_round_aux_sign true mz ez lz Hq) as Hs.
    destruct (binary_round_aux Binary64.prec Binary64.emax true mz ez lz)
      as [s | s | | s mm e]; intros E; try discriminate; try contradiction;
      injection E as <-; subst s; split; intros; try lia; exact I.
Qed.

(** [-0.0] and the negative floats are not [> 0.0]. *)
Lemma sign_set_not_positive (d : Binary64.float) :
  Binary64.sign_set d -> Binary64.gt d Binary64.zero = false.
Proof.
  destruct d as [[] | | | [] m e]; simpl; intros H; try contradiction; reflexivity.
Qed.

(** X1.  Lines 17-22 in binary64.  Without a previous position the
    duration is [0.0].  With one, the quotient - when it is within the
    range of binary64 - is [0.0] for equal positions, has its sign bit
    set and is not [> 0.0] when the current position is below the
    previous one, and has its sign bit clear and is not [< 0.0]
    otherwise. *)
Theorem frame_duration_sign (current previous : Z) (rate : positive)
    (d : Binary64.float) :
  Binary64.calculate_frame_duration current (Some previous) rate = Some d ->
  Binary64.calculate_frame_duration current None rate = Some Binary64.zero /\
  (current = previous -> d = Binary64.zero) /\
  (current < previous ->
   Binary64.sign_set d /\ Binary64.gt d Binary64.zero = false) /\
  (previous <= current ->
   Binary64.sign_clear d /\ Binary64.gt Binary64.zero d = false).
Proof.
  intros Hd. split; [reflexivity|]. split; [|split].
  - intros ->. unfold Binary64.calculate_frame_duration in Hd.
    rewrite Z.sub_diag in Hd. injection Hd as <-. reflexivity.
  - intros Hlt.
    assert (Hs : Binary64.sign_set d)
      by (apply (true_divide_sign _ _ _ Hd); lia).
    split; [exact Hs | exact (sign_set_not_positive _ Hs)].
  - intros Hle.
    assert (Hs : Binary64.sign_clear d)
      by (apply (true_divide_sign _ _ _ Hd); lia).
    split; [exact Hs|].
    destruct d as [[] | | | [] m e]; simpl in Hs; try contradiction; reflexivity.
Qed.

(** ** Binary64: one call of [update_window] *)



(** A page behind the tail of the window: lines 63-76. *)
Lemma update_window_backward
    (self : Binary64.CreateNsAudioPackage) (frame : OggSFrame)
    (delta : Binary64.float) :
  granule_position frame
  < previous_granule_position (Binary64.audio_data_buffer self) ->
  Binary64.calculate_frame_duration (granule_position frame)
    (Some (previous_granule_position (Binary64.audio_data_buffer self)))
    (Binary64.sample_rate self) = Some delta ->
  Binary64.sign_set delta /\
  Binary64.update_window self frame =
    (Binary64.set_window self (Binary64.audio_data_buffer self ++ [frame])
       (Binary64.add (Binary64.current_audio_buffer_seconds self) delta),
     Binary64.NoUpdate).
Proof.
  intros Hlt Hd.
  assert (Hs : Binary64.sign_set delta).
  { apply (true_divide_sign _ _ _ Hd). lia. }
  split; [exact Hs|].
  unfold Binary64.update_window. rewrite Hd.
  rewrite (sign_set_not_positive _ Hs). reflexivity.
Qed.

Section Binary64Properties.
Context {parser : PageParser}.

(** C9, as amended.  In the streaming state with a non-empty window, a
    page (a non-empty payload that parses) whose granule position is
    strictly below that of the window's tail, and whose duration - the
    quotient of line 22 - is within the range of binary64, raises no
    error: the page is appended to the window, nothing is removed, no
    blob is emitted, and the cumulative duration becomes the binary64
    sum of its old value and that duration, which has its sign bit set
    (a negative float, or [-0.0] when the quotient underflows). *)
Theorem backward_page_appended
    (self : Binary64.CreateNsAudioPackage) (data : bytes)
    (frame lf : OggSFrame) (delta : Binary64.float) :
  truthy (Binary64.header_frames self) = true ->
  last_frame (Binary64.audio_data_buffer self) = Some lf ->
  data <> [] ->
  OggSFrame_new data = Some frame ->
  granule_position frame < granule_position lf ->
  Binary64.calculate_frame_duration (granule_position frame)
    (Some (granule_position lf)) (Binary64.sample_rate self) = Some delta ->
  Binary64.sign_set delta /\
  Binary64.execute self data =
    (Binary64.set_window self (Binary64.audio_data_buffer self ++ [frame])
       (Binary64.add (Binary64.current_audio_buffer_seconds self) delta),
     Binary64.NoUpdate).
Proof.
  intros Hhf Hlf Hdata Hparse Hlt Hd.
  assert (Hprev : previous_granule_position (Binary64.audio_data_buffer self)
                  = granule_position lf).
  { unfold previous_granule_position. rewrite Hlf. reflexivity. }
  rewrite <- Hprev in Hlt, Hd.
  destruct (update_window_backward self frame delta Hlt Hd) as [Hs Hu].
  split; [exact Hs|].
  unfold Binary64.execute.
  destruct data as [|b data']; [contradiction Hdata; reflexivity|].
  rewrite Hparse, Hhf. exact Hu.
Qed.

End Binary64Properties.


(** ** Binary64: the window along a sequence of accepted pages *)








(** ** The binary64 theorems at concrete inputs *)

Import FloatRuns.

(** C9: in binary64 the negative duration can vanish in the sum.  The
    window holds the granule positions 1 and 2^54 + 1; the page at 2^54
    steps back by one sample, and the cumulative duration after the call
    is the float it was before the call: it does not decrease. *)
Lemma negative_delta_absorbed :
  let self := distant_state in
  let page := audio_page (2 ^ 54) in
  let self' := fst (Binary64.execute self page) in
  truthy (Binary64.header_frames self) = true /\
  gps (Binary64.audio_data_buffer self) = [1; 2 ^ 54 + 1] /\
  OggSFrame_new page = Some (audio (2 ^ 54)) /\
  granule_position (audio (2 ^ 54)) < 2 ^ 54 + 1 /\
  snd (Binary64.execute self page) = Binary64.NoUpdate /\
  gps (Binary64.audio_data_buffer self') = [1; 2 ^ 54 + 1; 2 ^ 54] /\
  Binary64.current_audio_buffer_seconds self
  = S754_finite false 6148914691236517 (-14) /\
  Binary64.current_audio_buffer_seconds self'
  = Binary64.current_audio_buffer_seconds self /\
  SFltb (Binary64.current_audio_buffer_seconds self')
    (Binary64.current_audio_buffer_seconds self) = false.
Proof.
  repeat split; vm_compute; reflexivity.
Qed.

(** C9, as amended, on a page that steps back from 24000 to 12000: a
    quarter of a second is taken from the half second in the window. *)
Lemma backward_page_appended_witness :
  truthy (Binary64.header_frames half_second_state) = true /\
  last_frame (Binary64.audio_data_buffer half_second_state) = Some (audio 24000) /\
  audio_page 12000 <> [] /\
  OggSFrame_new (audio_page 12000) = Some (audio 12000) /\
  granule_position (audio 12000) < granule_position (audio 24000) /\
  Binary64.calculate_frame_duration (granule_position (audio 12000))
    (Some (granule_position (audio 24000)))
    (Binary64.sample_rate half_second_state) = Some minus_quarter /\
  Binary64.sign_set minus_quarter /\
  Binary64.execute half_second_state (audio_page 12000) =
    (Binary64.set_window half_second_state
       (Binary64.audio_data_buffer half_second_state ++ [audio 12000])
       (Binary64.add (Binary64.current_audio_buffer_seconds half_second_state)
          minus_quarter),
     Binary64.NoUpdate).
Proof.
  assert (H1 : truthy (Binary64.header_frames half_second_state) = true)
    by (vm_compute; reflexivity).
  assert (H2 : last_frame (Binary64.audio_data_buffer half_second_state)
               = Some (audio 24000))
    by (vm_compute; reflexivity).
  assert (H3 : audio_page 12000 <> []) by discriminate.
  assert (H4 : OggSFrame_new (audio_page 12000) = Some (audio 12000))
    by (vm_compute; reflexivity).
  assert (H5 : granule_position (audio 12000) < granule_position (audio 24000))
    by (vm_compute; reflexivity).
  assert (H6 : Binary64.calculate_frame_duration (granule_position (audio 12000))
                 (Some (granule_position (audio 24000)))
                 (Binary64.sample_rate half_second_state) = Some minus_quarter)
    by (vm_compute; reflexivity).
  exact (conj H1 (conj H2 (conj H3 (conj H4 (conj H5 (conj H6
           (backward_page_appended half_second_state (audio_page 12000)
              (audio 12000) (audio 24000) minus_quarter
              H1 H2 H3 H4 H5 H6))))))).
Defined.


(** X1 on a step back from 24000 to 12000 at 48000 Hz: minus a quarter
    of a second. *)
Lemma frame_duration_sign_witness :
  Binary64.calculate_frame_duration 12000 (Some 24000) 48000 = Some minus_quarter /\
  Binary64.sign_set minus_quarter /\
  Binary64.gt minus_quarter Binary64.zero = false.
Proof.
  assert (H : Binary64.calculate_frame_duration 12000 (Some 24000) 48000
              = Some minus_quarter)
    by (vm_compute; reflexivity).
  split; [exact H|].
  exact (proj1 (proj2 (proj2 (frame_duration_sign 12000 24000 48000 minus_quarter H)))
           eq_refl).
Defined.
